(** * agent.py: the tool-calling chat loop, its registry and its dispatcher

    A shallow embedding of [src/agent.py].  Python text is a sequence of
    Unicode code points, Python values coming out of the JSON decoder are a
    small tree type, and the stateful parts (the conversation history, the
    console, the model endpoint, the tool handlers) are written in a state
    and exception monad. *)

From Stdlib Require Import String Ascii Bool ZArith NArith Lia Floats List.
From Stdlib Require Import DecimalString Permutation Sorted.
Import ListNotations.

Set Implicit Arguments.

(** ** Python text *)

(** A Python [str]: the list of its code points, so that [length] is
    Python's [len] and [firstn] is a slice from the start. *)
Definition pystr := list N.

(** Source literals are written as UTF-8 text and decoded once. *)
Fixpoint utf8_decode (bs : list N) : pystr :=
  match bs with
  | [] => []
  | b0 :: r0 =>
    if (b0 <? 128)%N then b0 :: utf8_decode r0
    else if (b0 <? 224)%N then
      match r0 with
      | b1 :: r1 => ((b0 - 192) * 64 + (b1 - 128))%N :: utf8_decode r1
      | _ => [b0]
      end
    else if (b0 <? 240)%N then
      match r0 with
      | b1 :: b2 :: r2 =>
        ((b0 - 224) * 4096 + (b1 - 128) * 64 + (b2 - 128))%N :: utf8_decode r2
      | _ => [b0]
      end
    else
      match r0 with
      | b1 :: b2 :: b3 :: r3 =>
        ((b0 - 240) * 262144 + (b1 - 128) * 4096 + (b2 - 128) * 64
         + (b3 - 128))%N :: utf8_decode r3
      | _ => [b0]
      end
  end.

Definition py (s : string) : pystr :=
  utf8_decode (map N_of_ascii (list_ascii_of_string s)).

Definition pystr_eqb (a b : pystr) : bool :=
  if list_eq_dec N.eq_dec a b then true else false.

(** [str.join]. *)
Fixpoint join (sep : pystr) (parts : list pystr) : pystr :=
  match parts with
  | [] => []
  | [p] => p
  | p :: rest => p ++ sep ++ join sep rest
  end.

(** The characters [str.isspace] accepts; [str.rstrip()] removes them from
    the end of a string. *)
Definition py_isspace (c : N) : bool :=
  ((9 <=? c) && (c <=? 13) || (28 <=? c) && (c <=? 32)
   || (c =? 133) || (c =? 160) || (c =? 5760)
   || (8192 <=? c) && (c <=? 8202)
   || (c =? 8232) || (c =? 8233) || (c =? 8239) || (c =? 8287)
   || (c =? 12288))%N.

Fixpoint lstrip (s : pystr) : pystr :=
  match s with
  | c :: r => if py_isspace c then lstrip r else s
  | [] => []
  end.

Definition rstrip (s : pystr) : pystr := rev (lstrip (rev s)).

(** [str(i)] for an integer, and the format [{i:4d}]: right-aligned in a
    field of four, wider when the number needs it. *)
Definition str_of_int (i : Z) : pystr :=
  py (DecimalString.NilZero.string_of_int (Z.to_int i)).

Definition format_4d (i : Z) : pystr :=
  let d := str_of_int i in repeat 32%N (4 - length d) ++ d.

Definition NL : pystr := [10%N].

(** A list slice [l[start:stop]] with Python's treatment of negative and
    out-of-range indices. *)
Definition slice_index (len i : Z) : Z :=
  if (i <? 0)%Z then Z.max 0 (i + len) else Z.min i len.

Definition py_slice {A} (l : list A) (start stop : Z) : list A :=
  let len := Z.of_nat (length l) in
  let a := slice_index len start in
  let b := slice_index len stop in
  firstn (Z.to_nat (b - a)) (skipn (Z.to_nat a) l).

(** ** Results and exceptions *)

(** The outcome of a Python call: a value, or a raised exception, kept as
    its description [str(e)].  Only exceptions deriving from [Exception]
    are modelled; interrupts delivered from outside the program are not. *)
Inductive Res (A : Type) : Type :=
| Val (a : A)
| Exn (e : pystr).
Arguments Val {A} a.
Arguments Exn {A} e.

(** ** The read tool (agent.py, lines 51-70) *)

Section Read.

(** [open(path, "r", encoding="utf-8")] followed by [f.readlines()]:
    the lines of the file, each with its line end, or the exception. *)
Variable readlines : pystr -> Res (list pystr).

(** [enumerate(lines, line_num_start)] with the line format. *)
Fixpoint numbered (i : Z) (lines : list pystr) : list pystr :=
  match lines with
  | [] => []
  | line :: rest =>
    (format_4d i ++ py " | " ++ rstrip line) :: numbered (i + 1) rest
  end.

(** The window of lines and the number of its first line. *)
Definition read_window (lines : list pystr) (offset limit : option Z)
  : list pystr * Z :=
  match offset with
  | Some offset =>
    let start := Z.max 0 (offset - 1) in
    let len := Z.of_nat (length lines) in
    let end_ := match limit with
                | None => len
                | Some limit => Z.min len (start + limit)
                end in
    (py_slice lines start end_, (start + 1)%Z)
  | None => (lines, 1%Z)
  end.

(** The list [result] built by the loop. *)
Definition read_result (lines : list pystr) (offset limit : option Z)
  : list pystr :=
  let (lines, line_num_start) := read_window lines offset limit in
  numbered line_num_start lines.

Definition read (path : pystr) (offset limit : option Z) : pystr :=
  match readlines path with
  | Val lines =>
    match read_result lines offset limit with
    | [] => py "(空文件)"
    | result => join NL result
    end
  | Exn e => py "错误: " ++ e
  end.

End Read.

(** ** Python values *)

(** What [json.loads] can return, and so what reaches a handler. *)
#[local] Set Warnings "-register-all".
Inductive pyval : Type :=
| PNone
| PBool (b : bool)
| PInt (i : Z)
| PFloat (x : float)
| PStr (s : pystr)
| PList (items : list pyval)
| PDict (items : list (pystr * pyval)).
#[local] Set Warnings "register-all".

(** ** Dictionaries

    A Python [dict] keeps its keys in insertion order: an association
    list without repeated keys. *)
Section Dict.
Context {V : Type}.

Fixpoint dict_get (k : pystr) (d : list (pystr * V)) : option V :=
  match d with
  | [] => None
  | (k', v) :: rest => if pystr_eqb k k' then Some v else dict_get k rest
  end.

(** [k in d]. *)
Definition dict_mem (k : pystr) (d : list (pystr * V)) : bool :=
  match dict_get k d with Some _ => true | None => false end.

(** [d[k] = v]: a present key keeps its place, a new one goes last. *)
Fixpoint dict_set (k : pystr) (v : V) (d : list (pystr * V))
  : list (pystr * V) :=
  match d with
  | [] => [(k, v)]
  | (k', v') :: rest =>
    if pystr_eqb k k' then (k', v) :: rest else (k', v') :: dict_set k v rest
  end.

Definition dict_keys (d : list (pystr * V)) : list pystr := map fst d.
End Dict.

(** ** The tool registry (agent.py, lines 192-223) *)

(** The six handler functions the registry binds. *)
Inductive ToolFn : Type :=
| fn_read | fn_write | fn_edit | fn_glob | fn_grep | fn_bash.

(** One registry value: [(description, params, func)]. *)
Definition ToolEntry : Type := (pystr * list (pystr * pystr) * ToolFn)%type.

Definition TOOLS : list (pystr * ToolEntry) :=
  [ (py "read",
     (py "Read file with line numbers (file path, not directory)",
      [(py "path", py "string"); (py "offset", py "number?");
       (py "limit", py "number?")],
      fn_read));
    (py "write",
     (py "Write content to file",
      [(py "path", py "string"); (py "content", py "string")],
      fn_write));
    (py "edit",
     (py "Replace old with new in file (old must be unique unless all=true)",
      [(py "path", py "string"); (py "old", py "string");
       (py "new", py "string"); (py "all", py "boolean?")],
      fn_edit));
    (py "glob",
     (py "Find files by pattern, sorted by mtime",
      [(py "pat", py "string"); (py "path", py "string?")],
      fn_glob));
    (py "grep",
     (py "Search files for regex pattern",
      [(py "pat", py "string"); (py "path", py "string?")],
      fn_grep));
    (py "bash",
     (py "Run shell command",
      [(py "cmd", py "string")],
      fn_bash)) ].

(** ** Schema export (agent.py, lines 226-260) *)

(** [{"type": t}] *)
Record Property : Type := { prop_type : pystr }.

(** [{"type": "object", "properties": ..., "required": ...}] *)
Record Parameters : Type :=
  { params_type : pystr;
    properties : list (pystr * Property);
    required : list pystr }.

(** [{"name": ..., "description": ..., "parameters": ...}] *)
Record FunctionDecl : Type :=
  { fn_name : pystr;
    fn_description : pystr;
    fn_parameters : Parameters }.

(** [{"type": "function", "function": ...}] *)
Record OpenAITool : Type :=
  { tool_type : pystr;
    tool_function : FunctionDecl }.

(** [param_type.endswith("?")] *)
Definition is_optional (param_type : pystr) : bool :=
  match rev param_type with
  | c :: _ => (c =? 63)%N
  | [] => false
  end.

(** The body of the loop over [params.items()]. *)
Definition add_param (acc : list (pystr * Property) * list pystr)
    (p : pystr * pystr) : list (pystr * Property) * list pystr :=
  let '(properties, required) := acc in
  let '(param_name, param_type) := p in
  let '(param_type, required) :=
    if is_optional param_type
    then (removelast param_type, required)
    else (param_type, required ++ [param_name]) in
  let properties :=
    if pystr_eqb param_type (py "string")
    then dict_set param_name {| prop_type := py "string" |} properties
    else if pystr_eqb param_type (py "number")
    then dict_set param_name {| prop_type := py "number" |} properties
    else if pystr_eqb param_type (py "boolean")
    then dict_set param_name {| prop_type := py "boolean" |} properties
    else properties in
  (properties, required).

(** The body of the loop over [TOOLS.items()]. *)
Definition tool_schema (tool : pystr * ToolEntry) : OpenAITool :=
  let '(name, (description, params, _)) := tool in
  let '(properties, required) := fold_left add_param params ([], []) in
  {| tool_type := py "function";
     tool_function :=
       {| fn_name := name;
          fn_description := description;
          fn_parameters :=
            {| params_type := py "object";
               properties := properties;
               required := required |} |} |}.

Definition build_openai_tools : list OpenAITool := map tool_schema TOOLS.

(** ** The state and exception monad *)

(** A computation over a state [S] that returns or raises. *)
Definition M (S A : Type) : Type := S -> Res A * S.

Definition ret {S A} (a : A) : M S A := fun s => (Val a, s).

Definition raise {S A} (e : pystr) : M S A := fun s => (Exn e, s).

Definition bind {S A B} (m : M S A) (k : A -> M S B) : M S B :=
  fun s =>
    match m s with
    | (Val a, s') => k a s'
    | (Exn e, s') => (Exn e, s')
    end.

(** A call that touches no state. *)
Definition lift_res {S A} (r : Res A) : M S A := fun s => (r, s).

(** [try: m  except Exception as e: h(e)] *)
Definition try_except {S A} (m : M S A) (h : pystr -> M S A) : M S A :=
  fun s =>
    match m s with
    | (Val a, s') => (Val a, s')
    | (Exn e, s') => h e s'
    end.

Declare Scope monad_scope.
Delimit Scope monad_scope with monad.
Notation "x <- m ;; k" := (bind m (fun x => k))
  (at level 61, m at next level, right associativity) : monad_scope.
Notation "m ;; k" := (bind m (fun _ => k))
  (at level 61, right associativity) : monad_scope.
Local Open Scope monad_scope.

(** [for x in xs: body(x)] *)
Fixpoint for_each {S A} (xs : list A) (body : A -> M S unit) : M S unit :=
  match xs with
  | [] => ret tt
  | x :: rest => body x ;; for_each rest body
  end.

(** ** Conversation data (agent.py, lines 314-380) *)

(** A tool-call request of the model: [tc.id], [tc.function.name] and
    [tc.function.arguments], the raw argument text. *)
Record ToolCall : Type :=
  { tc_id : pystr;
    tc_name : pystr;
    tc_arguments : pystr }.

(** The dictionaries kept in [self.messages] and sent to the endpoint,
    by their ["role"] and keys.  [content] is [None] when the model sent no
    text. *)
Inductive Msg : Type :=
| SystemMsg (content : pystr)
| UserMsg (content : pystr)
| AssistantMsg (content : option pystr)
| AssistantCalls (content : option pystr) (tool_calls : list ToolCall)
| ToolMsg (tool_call_id : pystr) (content : pystr).

(** [response.choices[i].message] *)
Record Message : Type :=
  { content : option pystr;
    tool_calls : option (list ToolCall) }.

Record Response : Type := { choices : list Message }.

(** The keyword arguments of [chat.completions.create]. *)
Record Request : Type :=
  { req_model : pystr;
    req_messages : list Msg;
    req_tools : list OpenAITool;
    req_tool_choice : pystr }.

(** The fields of [ToolAgent] the loop uses. *)
Record Agent : Type :=
  { model : pystr;
    tools : list OpenAITool;
    messages : list Msg;
    system_prompt : pystr }.

Definition set_messages (a : Agent) (msgs : list Msg) : Agent :=
  {| model := model a; tools := tools a; messages := msgs;
     system_prompt := system_prompt a |}.

(** The keyword arguments the loop passes to the endpoint (lines
    321-325). *)
Definition request_of (self : Agent) : Request :=
  {| req_model := model self;
     req_messages := SystemMsg (system_prompt self) :: messages self;
     req_tools := tools self;
     req_tool_choice := py "auto" |}.

(** [self.system_prompt] (lines 298-306). *)
Definition SYSTEM_PROMPT : pystr :=
  join NL
    [ py "你是一个有用的AI助手，可以使用以下工具帮助用户:";
      py "- read: 读取文件内容";
      py "- write: 写入文件";
      py "- edit: 编辑文件内容";
      py "- glob: 查找文件";
      py "- grep: 搜索文件内容";
      py "- bash: 执行shell命令";
      [];
      py "请根据用户需求选择合适工具。如果需要多个步骤，请逐步执行。" ].

(** The agent [__init__] builds for a model name (lines 291-306). *)
Definition new_agent (model : pystr) : Agent :=
  {| model := model;
     tools := build_openai_tools;
     messages := [];
     system_prompt := SYSTEM_PROMPT |}.

(** The colour codes of [Fore] and [Style]: escape sequences with
    colorama, empty strings without. *)
Record Palette : Type :=
  { YELLOW : pystr; MAGENTA : pystr; BLUE : pystr; RESET_ALL : pystr }.

(** What the program does that can be seen from outside, in order:
    requests to the model endpoint, lines printed, and calls of
    [execute_tool]. *)
Inductive Event : Type :=
| EvModelCall (req : Request)
| EvPrint (line : pystr)
| EvDispatch (name : pystr) (arguments : pyval).

(** How [chat] leaves: with the model's final content, or by running out
    of the [for] loop. *)
Inductive ChatExit : Type :=
| FinalResponse (content : option pystr)
| IterationLimitReached.

Definition ITERATION_LIMIT_MESSAGE : pystr :=
  py "达到最大迭代次数，请简化您的请求。".

(** The value [chat] returns. *)
Definition exit_value (e : ChatExit) : option pystr :=
  match e with
  | FinalResponse content => content
  | IterationLimitReached => Some ITERATION_LIMIT_MESSAGE
  end.

Definition max_iterations : nat := 10.

(** What [json.loads] does with a text: it returns the decoded value, it
    raises [JSONDecodeError] on a text that is not JSON, or it raises
    something else: [RecursionError] on a text nested deeper than the
    interpreter allows, [ValueError] on an integer of more than 4300
    digits. *)
Inductive Decoding : Type :=
| Decoded (v : pyval)
| JSONDecodeError
| DecodeRaised (e : pystr).

(** ** Dispatch and the chat loop *)

Section Agent.

(** Everything outside the program: the file system, the processes the
    tools start, the model endpoint. *)
Variable World : Type.

(** [self.client.chat.completions.create(...)]: a response, or a
    transport failure. *)
Variable create_completion : Request -> M World Response.

(** The call of a handler of the registry with [arguments] unpacked as
    keyword arguments: the text it returns, or the exception of the call
    (a handler that raises, an argument that does not fit the signature,
    an [arguments] that is not a mapping). *)
Variable call_handler : ToolFn -> pyval -> M World pystr.

(** [json.loads] on the argument text of a tool call. *)
Variable json_loads : pystr -> Decoding.

(** [json.dumps(v, ensure_ascii=False)] *)
Variable json_dumps : pyval -> pystr.

Variable Fore : Palette.

(** *** execute_tool (agent.py, lines 263-272) *)

Definition execute_tool (name : pystr) (arguments : pyval)
  : M World pystr :=
  match dict_get name TOOLS with
  | None => ret (py "错误: 未知工具 " ++ name)
  | Some (_, _, func) =>
    try_except (call_handler func arguments)
               (fun e => ret (py "工具执行错误: " ++ e))
  end.

(** *** ToolAgent (agent.py, lines 278-389) *)

Record State : Type :=
  { agent : Agent;
    world : World;
    trace : list Event }.

(** The state after [added] was appended to the history, the world
    became [w] and [evs] happened. *)
Definition advance (s : State) (added : list Msg) (w : World)
    (evs : list Event) : State :=
  {| agent := set_messages (agent s) (messages (agent s) ++ added);
     world := w;
     trace := trace s ++ evs |}.

Definition emit (ev : Event) : M State unit :=
  fun s => (Val tt, advance s [] (world s) [ev]).

(** [print(line)].  The console is taken to accept every text; one that
    cannot encode a text makes [print] raise, which ends a turn the way
    the exceptions of the decoder do. *)
Definition print (line : pystr) : M State unit := emit (EvPrint line).

(** [self.messages.append(m)] *)
Definition append_message (m : Msg) : M State unit :=
  fun s => (Val tt, advance s [m] (world s) []).

Definition get_agent : M State Agent := fun s => (Val (agent s), s).

(** Runs a computation of the outside world. *)
Definition in_world {A} (m : M World A) : M State A :=
  fun s => let (r, w) := m (world s) in (r, advance s [] w []).

(** The call of the endpoint (lines 320-326). *)
Definition call_model : M State Response :=
  self <- get_agent ;;
  let req := request_of self in
  emit (EvModelCall req) ;;
  in_world (create_completion req).

(** [response.choices[0]] *)
Definition first_choice (response : Response) : M State Message :=
  match choices response with
  | m :: _ => ret m
  | [] => raise (py "list index out of range")
  end.

(** The argument decoding of lines 361-364: [JSONDecodeError] is caught,
    and nothing else. *)
Definition tool_args (tool_call : ToolCall) : Res pyval :=
  match json_loads (tc_arguments tool_call) with
  | Decoded v => Val v
  | JSONDecodeError => Val (PDict [])
  | DecodeRaised e => Exn e
  end.

(** Line 374. *)
Definition display_result (result : pystr) : pystr :=
  if (500 <? length result)%nat then firstn 500 result ++ py "..."
  else result.

(** The three lines the loop prints (lines 337, 366-368 and 375). *)
Definition round_line (iteration : nat) : pystr :=
  NL ++ YELLOW Fore ++ py "[工具调用第 "
  ++ str_of_int (Z.of_nat iteration + 1) ++ py " 轮]" ++ RESET_ALL Fore.

Definition call_line (tool_name : pystr) (tool_args : pyval) : pystr :=
  py "  " ++ MAGENTA Fore ++ py "🔧 " ++ tool_name ++ RESET_ALL Fore
  ++ py "(" ++ json_dumps tool_args ++ py ")".

Definition result_line (result : pystr) : pystr :=
  py "  " ++ BLUE Fore ++ py "📤 结果: " ++ RESET_ALL Fore
  ++ display_result result.

(** The body of the loop over [message.tool_calls] (lines 359-380). *)
Definition handle_tool_call (tool_call : ToolCall) : M State unit :=
  let tool_name := tc_name tool_call in
  tool_args <- lift_res (tool_args tool_call) ;;
  print (call_line tool_name tool_args) ;;
  emit (EvDispatch tool_name tool_args) ;;
  result <- in_world (execute_tool tool_name tool_args) ;;
  print (result_line result) ;;
  append_message (ToolMsg (tc_id tool_call) result).

(** One pass of the loop body (lines 319-380): [Some e] when the pass
    returns from [chat], [None] when the loop goes on. *)
Definition chat_iteration (iteration : nat) : M State (option ChatExit) :=
  response <- call_model ;;
  message <- first_choice response ;;
  match tool_calls message with
  | None | Some [] =>
    append_message (AssistantMsg (content message)) ;;
    ret (Some (FinalResponse (content message)))
  | Some calls =>
    print (round_line iteration) ;;
    append_message (AssistantCalls (content message) calls) ;;
    for_each calls handle_tool_call ;;
    ret None
  end.

(** [for iteration in range(max_iterations)], with [n] passes left. *)
Fixpoint chat_loop (n iteration : nat) : M State ChatExit :=
  match n with
  | O => ret IterationLimitReached
  | S n' =>
    r <- chat_iteration iteration ;;
    match r with
    | Some e => ret e
    | None => chat_loop n' (S iteration)
    end
  end.

Definition chat_run (user_input : pystr) : M State ChatExit :=
  append_message (UserMsg user_input) ;;
  chat_loop max_iterations 0.

Definition chat (user_input : pystr) : M State (option pystr) :=
  e <- chat_run user_input ;;
  ret (exit_value e).

Definition clear_history : M State unit :=
  (fun s => (Val tt, {| agent := set_messages (agent s) [];
                        world := world s; trace := trace s |})) ;;
  print (py "对话历史已清空").

End Agent.

(** ** A JSON decoder for closed examples

    The loop above takes [json.loads] as it is.  To run it on concrete
    payloads, this decoder covers JSON texts made of [null], [true],
    [false], integers, strings without escape sequences, arrays and
    objects, with white space where JSON allows it; there it does what
    [json.loads] does, the [ValueError] on an integer of more than 4300
    digits included.  Texts outside that fragment (fractions, exponents,
    escape sequences, [NaN], [Infinity]) are not handled and are reported
    as not JSON; the depth of nesting is not limited. *)
Module JsonLite.

(** What scanning a piece of text gives: a value and the text after it,
    a text that is not JSON, or an exception of the conversion. *)
Inductive Scan (A : Type) : Type :=
| Got (a : A) (rest : pystr)
| Invalid
| Fails (e : pystr).
Arguments Got {A} a rest.
Arguments Invalid {A}.
Arguments Fails {A} e.

Definition is_ws (c : N) : bool :=
  ((c =? 32) || (c =? 9) || (c =? 10) || (c =? 13))%N.

Fixpoint skip_ws (s : pystr) : pystr :=
  match s with
  | c :: r => if is_ws c then skip_ws r else s
  | [] => []
  end.

Definition is_digit (c : N) : bool := ((48 <=? c) && (c <=? 57))%N.

(** The digits at the front of [s], as a number, and what follows. *)
Fixpoint digits (acc : Z) (s : pystr) : Z * pystr :=
  match s with
  | c :: r =>
    if is_digit c then digits (acc * 10 + Z.of_N (c - 48)) r else (acc, s)
  | [] => (acc, [])
  end.

(** What follows the digits at the front of [s]. *)
Fixpoint skip_digits (s : pystr) : pystr :=
  match s with
  | c :: r => if is_digit c then skip_digits r else s
  | [] => []
  end.

(** [sys.int_info.default_max_str_digits] *)
Definition MAX_STR_DIGITS : nat := 4300.

(** The [ValueError] of [int] on a text of [count] digits. *)
Definition too_many_digits (count : nat) : pystr :=
  py "Exceeds the limit (4300 digits) for integer string conversion: value has "
  ++ str_of_int (Z.of_nat count)
  ++ py " digits; use sys.set_int_max_str_digits() to increase the limit".

(** An integer: an optional sign, then [0] or digits that start with
    [1]-[9].  The digits are counted before they are converted. *)
Definition integer (s : pystr) : Scan Z :=
  let unsigned := match s with 45%N :: r => r | _ => s end in
  let sign := match s with 45%N :: _ => (-1)%Z | _ => 1%Z end in
  match unsigned with
  | c :: r =>
    if is_digit c then
      let rest := if (c =? 48)%N then r else skip_digits r in
      let count := length unsigned - length rest in
      let converted :=
        if (MAX_STR_DIGITS <? count)%nat then Fails (too_many_digits count)
        else Got (sign * (if (c =? 48)%N then 0 else fst (digits 0 unsigned)))%Z
                 rest in
      match rest with
      | d :: _ =>
        if ((d =? 46) || (d =? 101) || (d =? 69))%N then Invalid
        else converted
      | [] => converted
      end
    else Invalid
  | [] => Invalid
  end.

(** The characters of a string up to its closing quote. *)
Fixpoint string_body (s : pystr) : option (pystr * pystr) :=
  match s with
  | [] => None
  | c :: r =>
    if (c =? 34)%N then Some ([], r)
    else if ((c =? 92) || (c <? 32))%N then None
    else match string_body r with
         | Some (body, r') => Some (c :: body, r')
         | None => None
         end
  end.

Fixpoint value (fuel : nat) (s : pystr) : Scan pyval :=
  match fuel with
  | O => Invalid
  | S fuel =>
    match s with
    | 34%N :: r =>
      match string_body r with
      | Some (body, r') => Got (PStr body) r'
      | None => Invalid
      end
    | 123%N :: r =>
      match skip_ws r with
      | 125%N :: r' => Got (PDict []) r'
      | r' => members fuel [] r'
      end
    | 91%N :: r =>
      match skip_ws r with
      | 93%N :: r' => Got (PList []) r'
      | r' => elements fuel [] r'
      end
    | 110%N :: 117%N :: 108%N :: 108%N :: r => Got PNone r
    | 116%N :: 114%N :: 117%N :: 101%N :: r => Got (PBool true) r
    | 102%N :: 97%N :: 108%N :: 115%N :: 101%N :: r => Got (PBool false) r
    | _ =>
      match integer s with
      | Got i r => Got (PInt i) r
      | Invalid => Invalid
      | Fails e => Fails e
      end
    end
  end

(** The rest of an array, from the start of an element. *)
with elements (fuel : nat) (acc : list pyval) (s : pystr) : Scan pyval :=
  match fuel with
  | O => Invalid
  | S fuel =>
    match value fuel s with
    | Got v r =>
      match skip_ws r with
      | 44%N :: r' => elements fuel (acc ++ [v]) (skip_ws r')
      | 93%N :: r' => Got (PList (acc ++ [v])) r'
      | _ => Invalid
      end
    | Invalid => Invalid
    | Fails e => Fails e
    end
  end

(** The rest of an object, from the start of a key. *)
with members (fuel : nat) (acc : list (pystr * pyval)) (s : pystr)
  : Scan pyval :=
  match fuel with
  | O => Invalid
  | S fuel =>
    match s with
    | 34%N :: r =>
      match string_body r with
      | Some (key, r1) =>
        match skip_ws r1 with
        | 58%N :: r2 =>
          match value fuel (skip_ws r2) with
          | Got v r3 =>
            match skip_ws r3 with
            | 44%N :: r4 => members fuel (dict_set key v acc) (skip_ws r4)
            | 125%N :: r4 => Got (PDict (dict_set key v acc)) r4
            | _ => Invalid
            end
          | Invalid => Invalid
          | Fails e => Fails e
          end
        | _ => Invalid
        end
      | None => Invalid
      end
    | _ => Invalid
    end
  end.

Definition json_loads (s : pystr) : Decoding :=
  match value (2 * length s + 2) (skip_ws s) with
  | Got v r => match skip_ws r with [] => Decoded v | _ => JSONDecodeError end
  | Invalid => JSONDecodeError
  | Fails e => DecodeRaised e
  end.

(** A JSON text, written with ['] where JSON has its double quote. *)
Definition text (s : string) : pystr :=
  map (fun c => if (c =? 39)%N then 34%N else c) (py s).

Definition hex_digit (n : N) : N :=
  if (n <? 10)%N then (48 + n)%N else (87 + n)%N.

(** A character inside a JSON string: the quote, the backslash (code 92)
    and the control characters are written as escape sequences. *)
Definition escape (c : N) : pystr :=
  if (c =? 34)%N then [92%N; 34%N]
  else if (c =? 92)%N then [92%N; 92%N]
  else if (c =? 10)%N then 92%N :: py "n"
  else if (c =? 13)%N then 92%N :: py "r"
  else if (c =? 9)%N then 92%N :: py "t"
  else if (c =? 12)%N then 92%N :: py "f"
  else if (c =? 8)%N then 92%N :: py "b"
  else if (c <? 32)%N
  then 92%N :: py "u00" ++ [hex_digit (c / 16); hex_digit (c mod 16)]
  else [c].

Definition quoted (s : pystr) : pystr :=
  [34%N] ++ flat_map escape s ++ [34%N].

(** The text [json.dumps(v, ensure_ascii=False)] gives for a value of
    the fragment.  A float, which [json_loads] above never returns, is not
    rendered. *)
Fixpoint json_dumps (v : pyval) : pystr :=
  match v with
  | PNone => py "null"
  | PBool true => py "true"
  | PBool false => py "false"
  | PInt i => str_of_int i
  | PFloat _ => []
  | PStr s => quoted s
  | PList items => py "[" ++ join (py ", ") (map json_dumps items) ++ py "]"
  | PDict items =>
    py "{"
    ++ join (py ", ")
         (map (fun kv => quoted (fst kv) ++ py ": " ++ json_dumps (snd kv))
              items)
    ++ py "}"
  end.

End JsonLite.

(** ** An outside world for closed examples

    Files held in memory, a model endpoint that plays a script, and a
    handler layer that knows the calling convention and the read tool.  The
    properties below are proved for every world; this one runs them. *)
Module Demo.

Record World : Type :=
  { files : list (pystr * list pystr);
    script : list Response }.

Definition readlines (w : World) (path : pystr) : Res (list pystr) :=
  match dict_get path (files w) with
  | Some lines => Val lines
  | None =>
    Exn (py "[Errno 2] No such file or directory: '" ++ path ++ py "'")
  end.

(** The endpoint gives the answers of the script in turn; with none left
    the connection fails. *)
Definition scripted_model (req : Request) : M World Response :=
  fun w =>
    match script w with
    | r :: rest => (Val r, {| files := files w; script := rest |})
    | [] => (Exn (py "Connection error."), w)
    end.

(** An endpoint that asks for the same tool call whatever it is sent. *)
Definition insistent_model (tool_call : ToolCall) (req : Request)
  : M World Response :=
  ret {| choices := [{| content := None; tool_calls := Some [tool_call] |}] |}.

Definition type_name (v : pyval) : pystr :=
  match v with
  | PNone => py "NoneType"
  | PBool _ => py "bool"
  | PInt _ => py "int"
  | PFloat _ => py "float"
  | PStr _ => py "str"
  | PList _ => py "list"
  | PDict _ => py "dict"
  end.

Definition function_name (f : ToolFn) : pystr :=
  match f with
  | fn_read => py "read"
  | fn_write => py "write"
  | fn_edit => py "edit"
  | fn_glob => py "glob"
  | fn_grep => py "grep"
  | fn_bash => py "bash"
  end.

(** An optional integer argument: absent or [None], or an [int]. *)
Definition optional_int (name : pystr) (kwargs : list (pystr * pyval))
  : option (option Z) :=
  match dict_get name kwargs with
  | None | Some PNone => Some None
  | Some (PInt i) => Some (Some i)
  | Some _ => None
  end.

Definition OUTSIDE : pystr := py "call outside the examples".

(** [read] called with keyword arguments: a keyword that is no parameter
    and a missing [path] are the [TypeError]s of the call; a call with a
    text for [path] and integers for the rest runs the tool. *)
Definition call_read (kwargs : list (pystr * pyval)) : M World pystr :=
  match filter (fun k => negb (existsb (pystr_eqb k)
                                 [py "path"; py "offset"; py "limit"]))
               (dict_keys kwargs) with
  | k :: _ =>
    raise (py "read() got an unexpected keyword argument '" ++ k ++ py "'")
  | [] =>
    match dict_get (py "path") kwargs,
          optional_int (py "offset") kwargs,
          optional_int (py "limit") kwargs with
    | None, _, _ =>
      raise (py "read() missing 1 required positional argument: 'path'")
    | Some (PStr path), Some offset, Some limit =>
      fun w => (Val (read (readlines w) path offset limit), w)
    | _, _, _ => raise OUTSIDE
    end
  end.

(** The handler layer: arguments that are no dictionary are the
    [TypeError] of the call, whatever the handler; [read] is run; the
    other five handlers are not part of the examples. *)
Definition call_handler (f : ToolFn) (arguments : pyval) : M World pystr :=
  match arguments with
  | PDict kwargs =>
    match f with
    | fn_read => call_read kwargs
    | _ => raise OUTSIDE
    end
  | _ =>
    raise (py "__main__." ++ function_name f
           ++ py "() argument after ** must be a mapping, not "
           ++ type_name arguments)
  end.

(** [Fore] and [Style] without colorama (lines 32-36). *)
Definition no_colour : Palette :=
  {| YELLOW := []; MAGENTA := []; BLUE := []; RESET_ALL := [] |}.

Definition NOTES : list pystr :=
  [py "alpha" ++ NL; py "beta  " ++ NL; py "gamma"].

(** A fresh agent in a world with one file and a script for the model. *)
Definition start (script : list Response) : State World :=
  {| agent := new_agent (py "gpt-4o-mini");
     world := {| files := [(py "notes.txt", NOTES)]; script := script |};
     trace := [] |}.

Definition run_chat (user_input : pystr) : M (State World) (option pystr) :=
  chat scripted_model call_handler JsonLite.json_loads JsonLite.json_dumps
       no_colour user_input.

Definition DELETE_UNIVERSE : ToolCall :=
  {| tc_id := py "call_1"; tc_name := py "delete_universe";
     tc_arguments := py "{}" |}.

Definition READ_NOTES : ToolCall :=
  {| tc_id := py "call_a"; tc_name := py "read";
     tc_arguments := JsonLite.text "{'path': 'notes.txt'}" |}.

(** A request to read with a limit of 4301 digits: JSON, but more digits
    than [int] converts. *)
Definition READ_WITH_LONG_LIMIT : ToolCall :=
  {| tc_id := py "call_b"; tc_name := py "read";
     tc_arguments :=
       JsonLite.text "{'path': 'notes.txt', 'limit': "
       ++ repeat 49%N 4301 ++ py "}" |}.

(** An answer of the model that asks for [calls] and says nothing. *)
Definition asking (calls : list ToolCall) : Response :=
  {| choices := [{| content := None; tool_calls := Some calls |}] |}.

End Demo.

(** ** Searching and replacing in text *)

(** [s.startswith(p)] *)
Fixpoint starts_with (p s : pystr) : bool :=
  match p, s with
  | [], _ => true
  | a :: p', b :: s' => (a =? b)%N && starts_with p' s'
  | _ :: _, [] => false
  end.

(** The occurrences [str.count] and [str.replace] see are taken from left
    to right and do not overlap.  For a pattern that is not empty, [skip]
    is the number of characters the last occurrence still covers. *)
Fixpoint count_from (sub : pystr) (skip : nat) (s : pystr) : nat :=
  match s with
  | [] => 0
  | _ :: r =>
    match skip with
    | S k => count_from sub k r
    | O =>
      if starts_with sub s then S (count_from sub (length sub - 1) r)
      else count_from sub 0 r
    end
  end.

(** [s.count(sub)]; the empty text occurs once at every position. *)
Definition str_count (sub s : pystr) : nat :=
  match sub with
  | [] => S (length s)
  | _ => count_from sub 0 s
  end.

Fixpoint replace_from (old new : pystr) (skip : nat) (s : pystr) : pystr :=
  match s with
  | [] => []
  | c :: r =>
    match skip with
    | S k => replace_from old new k r
    | O =>
      if starts_with old s then new ++ replace_from old new (length old - 1) r
      else c :: replace_from old new 0 r
    end
  end.

(** [s.replace(old, new)]; for the empty [old], [new] goes in front of
    every character and at the end. *)
Definition str_replace (old new s : pystr) : pystr :=
  match old with
  | [] => new ++ flat_map (fun c => c :: new) s
  | _ => replace_from old new 0 s
  end.

(** [s.replace(old, new, 1)] *)
Fixpoint str_replace_first (old new s : pystr) : pystr :=
  match s with
  | [] => match old with [] => new | _ => [] end
  | c :: r =>
    if starts_with old s then new ++ skipn (length old) s
    else c :: str_replace_first old new r
  end.

(** [sub in s] *)
Fixpoint str_contains (sub s : pystr) : bool :=
  match s with
  | [] => match sub with [] => true | _ => false end
  | _ :: r => starts_with sub s || str_contains sub r
  end.

(** ** The write and edit tools (agent.py, lines 73-103) *)

Section Files.

Variable World : Type.

(** [open(path, "r", encoding="utf-8")] and [f.read()]: the text of the
    file, or the exception. *)
Variable read_text : pystr -> M World pystr.

(** [open(path, "w", encoding="utf-8")] and [f.write(content)]. *)
Variable write_text : pystr -> pystr -> M World unit.

Definition write (path content : pystr) : M World pystr :=
  try_except
    (write_text path content ;;
     ret (py "成功写入文件: " ++ path))
    (fun e => ret (py "错误: " ++ e)).

(** The last line of [edit] (line 101). *)
Definition edit_report (count : nat) : pystr :=
  if (0 <? count)%nat
  then py "成功替换 " ++ str_of_int (Z.of_nat count) ++ py " 处内容"
  else py "未找到匹配内容".

Definition MULTIPLE_MATCHES : pystr :=
  py "错误: 找到多个匹配，请使用 all=true 或确保 old 唯一".

Definition edit (path old new : pystr) (all : bool) : M World pystr :=
  try_except
    (content <- read_text path ;;
     if all then
       let new_content := str_replace old new content in
       let count := str_count old content in
       write_text path new_content ;;
       ret (edit_report count)
     else
       if (1 <? str_count old content)%nat then ret MULTIPLE_MATCHES
       else
         let new_content := str_replace_first old new content in
         let count := if str_contains old content then 1 else 0 in
         write_text path new_content ;;
         ret (edit_report count))
    (fun e => ret (py "错误: " ++ e)).

End Files.

(** [edit] after it has read the file, when it goes on to write: the text
    it writes and the answer it gives when the write works. *)
Definition write_and_report {World : Type}
    (write_text : pystr -> pystr -> M World unit)
    (path new_content report : pystr) : M World pystr :=
  try_except (write_text path new_content ;; ret report)
             (fun e => ret (py "错误: " ++ e)).

(** Files held in memory, for closed instances of the file tools. *)
Module MemFiles.

Definition World : Type := list (pystr * pystr).

Definition read_text (path : pystr) : M World pystr :=
  fun w =>
    match dict_get path w with
    | Some content => (Val content, w)
    | None =>
      (Exn (py "[Errno 2] No such file or directory: '" ++ path ++ py "'"), w)
    end.

Definition write_text (path content : pystr) : M World unit :=
  fun w => (Val tt, dict_set path content w).

Definition CONFIG : World := [(py "app.cfg", py "mode=dev;debug=on;mode=dev")].

End MemFiles.

(** ** Decoding the output of a process (agent.py, lines 150-165) *)

(** Python [bytes]: numbers below 256. *)
Definition bytes : Type := list N.

(** A continuation byte, [10xxxxxx]. *)
Definition is_cont (b : N) : bool := ((128 <=? b) && (b <? 192))%N.

(** [data.decode("utf-8")], strict: [None] stands for
    [UnicodeDecodeError].  Overlong forms, surrogates and code points
    above U+10FFFF are errors. *)
Fixpoint utf8_strict (bs : bytes) : option pystr :=
  match bs with
  | [] => Some []
  | b0 :: r0 =>
    if (b0 <? 128)%N then option_map (cons b0) (utf8_strict r0)
    else if (b0 <? 194)%N then None
    else if (b0 <? 224)%N then
      match r0 with
      | b1 :: r1 =>
        if is_cont b1
        then option_map (cons ((b0 - 192) * 64 + (b1 - 128))%N)
                        (utf8_strict r1)
        else None
      | _ => None
      end
    else if (b0 <? 240)%N then
      match r0 with
      | b1 :: b2 :: r2 =>
        if is_cont b1 && is_cont b2
           && (negb (b0 =? 224)%N || (160 <=? b1)%N)
           && (negb (b0 =? 237)%N || (b1 <? 160)%N)
        then option_map
               (cons ((b0 - 224) * 4096 + (b1 - 128) * 64 + (b2 - 128))%N)
               (utf8_strict r2)
        else None
      | _ => None
      end
    else if (b0 <? 245)%N then
      match r0 with
      | b1 :: b2 :: b3 :: r3 =>
        if is_cont b1 && is_cont b2 && is_cont b3
           && (negb (b0 =? 240)%N || (144 <=? b1)%N)
           && (negb (b0 =? 244)%N || (b1 <? 144)%N)
        then option_map
               (cons ((b0 - 240) * 262144 + (b1 - 128) * 4096
                      + (b2 - 128) * 64 + (b3 - 128))%N)
               (utf8_strict r3)
        else None
      | _ => None
      end
    else None
  end.

Section Decode.

(** [data.decode("gbk")], [None] for [UnicodeDecodeError], and
    [data.decode("utf-8", errors="replace")]. *)
Variable decode_gbk : bytes -> option pystr.
Variable decode_replace : bytes -> pystr.

Definition _decode_bytes (data : bytes) : pystr :=
  match data with
  | [] => []
  | _ =>
    match utf8_strict data with
    | Some s => s
    | None =>
      match decode_gbk data with
      | Some s => s
      | None => decode_replace data
      end
    end
  end.

(** ** The bash tool (agent.py, lines 168-187) *)

(** What [subprocess.run(cmd, shell=True, capture_output=True,
    timeout=60)] gives: a finished process, [TimeoutExpired], or another
    exception. *)
Record CompletedProcess : Type :=
  { cp_stdout : bytes;
    cp_stderr : bytes;
    cp_returncode : Z }.

Inductive RunOutcome : Type :=
| Completed (result : CompletedProcess)
| TimeoutExpired
| RunFailed (e : pystr).

Variable World : Type.
Variable subprocess_run : pystr -> World -> RunOutcome * World.

Definition bash (cmd : pystr) : M World pystr :=
  fun w =>
    match subprocess_run cmd w with
    | (Completed result, w') =>
      let stdout := _decode_bytes (cp_stdout result) in
      let stderr := _decode_bytes (cp_stderr result) in
      let output := stdout in
      let output :=
        match stderr with
        | [] => output
        | _ => output ++ NL ++ py "[stderr]: " ++ stderr
        end in
      let output :=
        if (cp_returncode result =? 0)%Z then output
        else output ++ NL ++ py "[退出码]: "
             ++ str_of_int (cp_returncode result) in
      (Val match output with [] => py "(无输出)" | _ => output end, w')
    | (TimeoutExpired, w') => (Val (py "错误: 命令超时(60秒)"), w')
    | (RunFailed e, w') => (Val (py "错误: " ++ e), w')
    end.

End Decode.

(** A text Python can encode: no surrogate, nothing above U+10FFFF. *)
Definition is_scalar (c : N) : bool :=
  ((c <? 55296) || (57344 <=? c) && (c <? 1114112))%N.

(** [s.encode("utf-8")] *)
Definition utf8_encode_char (c : N) : bytes :=
  if (c <? 128)%N then [c]
  else if (c <? 2048)%N then [192 + c / 64; 128 + c mod 64]%N
  else if (c <? 65536)%N
  then [224 + c / 4096; 128 + (c / 64) mod 64; 128 + c mod 64]%N
  else [240 + c / 262144; 128 + (c / 4096) mod 64; 128 + (c / 64) mod 64;
        128 + c mod 64]%N.

Definition utf8_encode (s : pystr) : bytes := flat_map utf8_encode_char s.

(** [output or "(无输出)"] *)
Definition or_no_output (output : pystr) : pystr :=
  match output with
  | [] => py "(无输出)"
  | _ => output
  end.

(** What [bash] puts after the standard output. *)
Definition bash_tail (stderr : pystr) (returncode : Z) : pystr :=
  match stderr with
  | [] => []
  | _ => NL ++ py "[stderr]: " ++ stderr
  end
  ++ (if (returncode =? 0)%Z then []
      else NL ++ py "[退出码]: " ++ str_of_int returncode).

(** ** The glob and grep tools (agent.py, lines 106-147) *)

Section Search.

(** [os.walk(path)]: the pairs of a directory and the names of its files,
    in the order the walk yields them (the loops do not use the names of
    the sub-directories), or the exception. *)
Variable walk : pystr -> Res (list (pystr * list pystr)).

(** [os.path.join] *)
Variable path_join : pystr -> pystr -> pystr.

(** *** glob *)

(** [fnmatch.fnmatch(filename, pat)] *)
Variable fnmatch : pystr -> pystr -> bool.

(** [os.path.getmtime]: a time, or the exception; times are compared by
    [<] and printed by the format of an f-string. *)
Variable Time : Type.
Variable getmtime : pystr -> Res Time.
Variable time_ltb : Time -> Time -> bool.
Variable show_time : Time -> pystr.

(** The body of the loop over [files]; an exception ends the loops. *)
Definition glob_file (pat root : pystr) (matches : Res (list (pystr * Time)))
    (filename : pystr) : Res (list (pystr * Time)) :=
  match matches with
  | Exn e => Exn e
  | Val matches =>
    if fnmatch filename pat then
      let full_path := path_join root filename in
      match getmtime full_path with
      | Val mtime => Val (matches ++ [(full_path, mtime)])
      | Exn e => Exn e
      end
    else Val matches
  end.

Definition glob_dir (pat : pystr) (matches : Res (list (pystr * Time)))
    (entry : pystr * list pystr) : Res (list (pystr * Time)) :=
  let (root, files) := entry in
  fold_left (glob_file pat root) files matches.

(** [matches.sort(key=lambda x: x[1], reverse=True)]: the sort is stable,
    so entries of the same time keep their order. *)
Fixpoint insert_by_mtime (x : pystr * Time) (l : list (pystr * Time))
  : list (pystr * Time) :=
  match l with
  | [] => [x]
  | y :: r =>
    if time_ltb (snd x) (snd y) then y :: insert_by_mtime x r
    else x :: y :: r
  end.

Definition sort_newest_first (l : list (pystr * Time))
  : list (pystr * Time) :=
  fold_right insert_by_mtime [] l.

Definition glob_line (entry : pystr * Time) : pystr :=
  fst entry ++ py " | " ++ show_time (snd entry).

Definition glob (pat path : pystr) : pystr :=
  match walk path with
  | Val dirs =>
    match fold_left (glob_dir pat) dirs (Val []) with
    | Val [] => py "未找到匹配文件"
    | Val matches => join NL (map glob_line (sort_newest_first matches))
    | Exn e => py "错误: " ++ e
    end
  | Exn e => py "错误: " ++ e
  end.

(** *** grep *)

(** The lines of a file opened with [errors="ignore"], or the exception
    of opening it. *)
Variable open_lines : pystr -> Res (list pystr).

(** [re.search(pat, line)] as a truth value, or the exception. *)
Variable re_search : pystr -> pystr -> Res bool.

Definition grep_line (filepath : pystr) (i : Z) (line : pystr) : pystr :=
  filepath ++ py ":" ++ str_of_int i ++ py ": " ++ rstrip line.

(** The loop over the lines of one file, from line [i] on.  An exception
    leaves the file; what was found before stays. *)
Fixpoint grep_scan (pat filepath : pystr) (i : Z) (lines : list pystr)
    (results : list pystr) : list pystr :=
  match lines with
  | [] => results
  | line :: rest =>
    match re_search pat line with
    | Val true =>
      grep_scan pat filepath (i + 1) rest
                (results ++ [grep_line filepath i line])
    | Val false => grep_scan pat filepath (i + 1) rest results
    | Exn _ => results
    end
  end.

(** The body of the loop over [files], with its [try] and bare
    [except: continue]. *)
Definition grep_file (pat root : pystr) (results : list pystr)
    (filename : pystr) : list pystr :=
  let filepath := path_join root filename in
  match open_lines filepath with
  | Val lines => grep_scan pat filepath 1 lines results
  | Exn _ => results
  end.

Definition grep_dir (pat : pystr) (results : list pystr)
    (entry : pystr * list pystr) : list pystr :=
  let (root, files) := entry in
  fold_left (grep_file pat root) files results.

Definition grep (pat path : pystr) : pystr :=
  match walk path with
  | Val dirs =>
    match fold_left (grep_dir pat) dirs [] with
    | [] => py "未找到匹配"
    | results => join NL (firstn 50 results)
    end
  | Exn e => py "错误: " ++ e
  end.

End Search.

(** The paths [glob] looks at: the files of the walk whose name matches,
    in the order of the walk. *)
Definition matching_files (path_join : pystr -> pystr -> pystr)
    (fnmatch : pystr -> pystr -> bool) (pat : pystr)
    (dirs : list (pystr * list pystr)) : list pystr :=
  flat_map (fun entry : pystr * list pystr =>
              map (path_join (fst entry))
                  (filter (fun filename => fnmatch filename pat) (snd entry)))
           dirs.

(** Newest first: no entry is older than one that follows it. *)
Definition newest_first {Time : Type} (time_ltb : Time -> Time -> bool)
    (l : list (pystr * Time)) : Prop :=
  StronglySorted (fun a b => time_ltb (snd a) (snd b) = false) l.

(** Paths with the times of a world in which every time can be read. *)
Definition stamped {Time : Type} (mtime_of : pystr -> Time)
    (paths : list pystr) : list (pystr * Time) :=
  map (fun p => (p, mtime_of p)) paths.

(** A result of [grep] that is right: it names a file of the walk that
    opens, a line of it that matches, and the number of that line. *)
Definition grep_hit (path_join : pystr -> pystr -> pystr)
    (open_lines : pystr -> Res (list pystr))
    (re_search : pystr -> pystr -> Res bool)
    (pat : pystr) (dirs : list (pystr * list pystr)) (r : pystr) : Prop :=
  exists root files filename lines k line,
    In (root, files) dirs
    /\ In filename files
    /\ open_lines (path_join root filename) = Val lines
    /\ nth_error lines k = Some line
    /\ re_search pat line = Val true
    /\ r = grep_line (path_join root filename) (Z.of_nat k + 1) line.

(** Processes and a directory tree, for closed instances of the bash,
    glob and grep tools. *)
Module ToolDemo.

Definition World : Type := unit.

(** No GBK table here: every text is taken not to be GBK. *)
Definition decode_gbk (data : bytes) : option pystr := None.

Definition decode_replace (data : bytes) : pystr := [65533%N].

(** A command that prints a greeting and a warning and exits with 2. *)
Definition GREETING : CompletedProcess :=
  {| cp_stdout := utf8_encode (py "你好");
     cp_stderr := utf8_encode (py "warn");
     cp_returncode := 2 |}.

Definition subprocess_run (cmd : pystr) (w : World) : RunOutcome * World :=
  (Completed GREETING, w).

(** Two directories; the listing of [lost] is stale. *)
Definition walk (path : pystr) : Res (list (pystr * list pystr)) :=
  if pystr_eqb path (py "src")
  then Val [(py "src", [py "a.py"; py "notes.txt"; py "b.py"])]
  else if pystr_eqb path (py "lost")
  then Val [(py "lost", [py "gone.py"; py "kept.py"])]
  else Val [].

Definition path_join (a b : pystr) : pystr := a ++ py "/" ++ b.

(** Patterns of the form [*suffix], and names. *)
Definition fnmatch (filename pat : pystr) : bool :=
  match pat with
  | 42%N :: suffix => starts_with (rev suffix) (rev filename)
  | _ => pystr_eqb filename pat
  end.

(** Times in whole seconds; the file [gone.py] has vanished. *)
Definition getmtime (path : pystr) : Res Z :=
  if pystr_eqb path (py "src/a.py") then Val 100%Z
  else if pystr_eqb path (py "src/b.py") then Val 200%Z
  else if pystr_eqb path (py "src/notes.txt") then Val 150%Z
  else if pystr_eqb path (py "lost/kept.py") then Val 50%Z
  else Exn (py "[Errno 2] No such file or directory: '" ++ path ++ py "'").

Definition mtime_of (path : pystr) : Z :=
  match getmtime path with Val t => t | Exn _ => 0%Z end.

Definition open_lines (path : pystr) : Res (list pystr) :=
  if pystr_eqb path (py "src/a.py")
  then Val [py "import os" ++ NL; py "print(os.sep)" ++ NL]
  else if pystr_eqb path (py "src/b.py")
  then Val [py "import sys" ++ NL]
  else Exn (py "[Errno 2] No such file or directory: '" ++ path ++ py "'").

(** Patterns without special characters are looked for as they are; a
    pattern that opens a group and does not close it is refused. *)
Definition re_search (pat line : pystr) : Res bool :=
  if pystr_eqb pat (py "(")
  then Exn (py "missing ), unterminated subpattern at position 0")
  else Val (str_contains pat line).

End ToolDemo.

(** ** The interactive loop (agent.py, lines 432-465) *)

(** [str.strip()] *)
Definition strip (s : pystr) : pystr := rstrip (lstrip s).

(** What [input(prompt)] does: it returns the line typed, raises an
    exception ([EOFError] when the input has ended), or is interrupted
    from the keyboard.  The interrupt is modelled at the prompt only.  In
    the program [except KeyboardInterrupt] (lines 460-462) also covers the
    turn: an interrupt that arrives while [chat] runs ends the loop as
    well.  A turn is not modelled as interruptible, so what is proved of
    the loop below is about passes in which no turn runs. *)
Inductive InputOutcome : Type :=
| Typed (line : pystr)
| InputRaised (e : pystr)
| Interrupted.

(** How a pass of [while True] ends: with the next pass ([continue], or
    the end of the body), or with [break]. *)
Inductive LoopStep : Type := GoOn | Leave.

Definition QUIT_WORDS : list pystr :=
  [py "/quit"; py "/exit"; py "quit"; py "exit"].

Definition GOODBYE : pystr := py "👋 再见!".

(** An optional text inside an f-string. *)
Definition str_of_optional (v : option pystr) : pystr :=
  match v with
  | Some text => text
  | None => py "None"
  end.

Section Main.

Variable World : Type.
Variable create_completion : Request -> M World Response.
Variable call_handler : ToolFn -> pyval -> M World pystr.
Variable json_loads : pystr -> Decoding.
Variable json_dumps : pyval -> pystr.
Variable Fore : Palette.

(** [Fore.CYAN] and [Fore.GREEN]. *)
Variable CYAN GREEN : pystr.

(** [input(prompt)] *)
Variable input : pystr -> World -> InputOutcome * World.

(** [str.lower()] *)
Variable lower : pystr -> pystr.

(** A parameter dictionary of the registry inside an f-string. *)
Variable show_params : list (pystr * pystr) -> pystr.

#[local] Abbreviation State := (State World).

Definition PROMPT : pystr := CYAN ++ py "👤 用户: " ++ RESET_ALL Fore.

Definition read_input (prompt : pystr) : M State InputOutcome :=
  fun s => let (r, w) := input prompt (world s) in (Val r, advance s [] w []).

(** Lines 449-452. *)
Definition show_tool (tool : pystr * ToolEntry) : M State unit :=
  let '(name, (desc, params, _)) := tool in
  print (py "  - " ++ name ++ py ": " ++ desc) ;;
  print (py "    参数: " ++ show_params params).

Definition show_tools : M State unit :=
  print (NL ++ py "可用工具:") ;;
  for_each TOOLS show_tool.

Definition answer_line (response : option pystr) : pystr :=
  NL ++ GREEN ++ py "🤖 Agent: " ++ str_of_optional response
  ++ RESET_ALL Fore.

(** What the pass does with the text typed, stripped (lines 437-458). *)
Definition main_command (user_input : pystr) : M State LoopStep :=
  match user_input with
  | [] => ret GoOn
  | _ =>
    if existsb (pystr_eqb (lower user_input)) QUIT_WORDS then
      print GOODBYE ;; ret Leave
    else if pystr_eqb (lower user_input) (py "/clear") then
      @clear_history World ;; ret GoOn
    else if pystr_eqb (lower user_input) (py "/tools") then
      show_tools ;; ret GoOn
    else
      print [] ;;
      response <- chat create_completion call_handler json_loads json_dumps
                       Fore user_input ;;
      print (answer_line response) ;;
      ret GoOn
  end.

(** The body of the [try] (lines 434-458). *)
Definition main_body : M State LoopStep :=
  print [] ;;
  typed <- read_input PROMPT ;;
  match typed with
  | Typed line => main_command (strip line)
  | InputRaised e => raise e
  | Interrupted => print (NL ++ GOODBYE) ;; ret Leave
  end.

Definition error_line (e : pystr) : pystr := NL ++ py "❌ 错误: " ++ e.

(** One pass of [while True] (lines 433-464). *)
Definition main_iteration : M State LoopStep :=
  try_except main_body (fun e => print (error_line e) ;; ret GoOn).

(** [while True] for at most [fuel] passes: [true] when the loop was left
    by then, [false] when it is still running. *)
Fixpoint main_loop (fuel : nat) : M State bool :=
  match fuel with
  | O => ret false
  | S n =>
    step <- main_iteration ;;
    match step with
    | Leave => ret true
    | GoOn => main_loop n
    end
  end.

End Main.

(** A console and an endpoint for closed examples of the loop. *)
Module Session.

Record World : Type :=
  { keyboard : list InputOutcome;
    outside : Demo.World }.

(** The lines come from [keyboard]; after the last one the input has
    ended. *)
Definition input (prompt : pystr) (w : World) : InputOutcome * World :=
  match keyboard w with
  | o :: rest => (o, {| keyboard := rest; outside := outside w |})
  | [] => (InputRaised (py "EOF when reading a line"), w)
  end.

Definition lifted {A} (m : M Demo.World A) : M World A :=
  fun w => let (r, d) := m (outside w) in
           (r, {| keyboard := keyboard w; outside := d |}).

Definition create_completion (req : Request) : M World Response :=
  lifted (Demo.scripted_model req).

Definition call_handler (f : ToolFn) (arguments : pyval) : M World pystr :=
  lifted (Demo.call_handler f arguments).

(** [str.lower] on the letters A to Z. *)
Definition lower (s : pystr) : pystr :=
  map (fun c => if ((65 <=? c) && (c <=? 90))%N then (c + 32)%N else c) s.

Definition show_params (params : list (pystr * pystr)) : pystr :=
  py "{" ++ join (py ", ")
              (map (fun p => py "'" ++ fst p ++ py "': '" ++ snd p ++ py "'")
                   params)
  ++ py "}".

Definition start (keys : list InputOutcome) (script : list Response)
  : State World :=
  {| agent := new_agent (py "gpt-4o-mini");
     world := {| keyboard := keys;
                 outside := {| Demo.files := [(py "notes.txt", Demo.NOTES)];
                               Demo.script := script |} |};
     trace := [] |}.

Definition main_iteration : M (State World) LoopStep :=
  main_iteration create_completion call_handler JsonLite.json_loads
                 JsonLite.json_dumps Demo.no_colour [] [] input lower
                 show_params.

Definition main_loop (fuel : nat) : M (State World) bool :=
  main_loop create_completion call_handler JsonLite.json_loads
            JsonLite.json_dumps Demo.no_colour [] [] input lower
            show_params fuel.

End Session.

(** ** The vocabulary of the properties *)

Definition required_of (params : list (pystr * pystr)) : list pystr :=
  map fst (filter (fun p => negb (is_optional (snd p))) params).

(** The type a parameter is declared with, its marker removed. *)
Definition base_type (param_type : pystr) : pystr :=
  if is_optional param_type then removelast param_type else param_type.

Definition known_type (param_type : pystr) : bool :=
  pystr_eqb (base_type param_type) (py "string")
  || pystr_eqb (base_type param_type) (py "number")
  || pystr_eqb (base_type param_type) (py "boolean").

Fixpoint distinct (l : list pystr) : bool :=
  match l with
  | [] => true
  | x :: r => negb (existsb (pystr_eqb x) r) && distinct r
  end.

(** The registry is a well-formed dictionary of well-formed dictionaries,
    and every declared type is one the export knows. *)
Definition well_formed_tool (tool : pystr * ToolEntry) : bool :=
  let '(_, (_, params, _)) := tool in
  distinct (map fst params) && forallb (fun p => known_type (snd p)) params.

(** The number of requests to the model endpoint in a trace. *)
Fixpoint model_calls (evs : list Event) : nat :=
  match evs with
  | [] => 0
  | EvModelCall _ :: r => S (model_calls r)
  | _ :: r => model_calls r
  end.

(** [results] answers [calls]: one tool-result turn per request, in the
    order of the requests, each under the identifier of its request. *)
Definition answers (calls : list ToolCall) (results : list Msg) : Prop :=
  Forall2 (fun tc m => exists content, m = ToolMsg (tc_id tc) content)
          calls results.

(** One round of the loop in the history: the assistant turn with its
    requests, then their answers. *)
Definition tool_round (round : list Msg) : Prop :=
  exists content tc calls results,
    round = AssistantCalls content (tc :: calls) :: results
    /\ answers (tc :: calls) results.

(** A round cut short by an exception: the assistant turn with its
    requests, and the answers to the requests handled before the
    exception, which are not all of them. *)
Definition cut_round (round : list Msg) : Prop :=
  exists content tc calls results,
    round = AssistantCalls content (tc :: calls) :: results
    /\ length results < length (tc :: calls)
    /\ answers (firstn (length results) (tc :: calls)) results.

(** What a loop that ended with [r] left in the history after its whole
    rounds: the answer of the model, nothing at the iteration limit, and
    after an exception nothing or a round cut short. *)
Definition turn_end (r : Res ChatExit) (last : list Msg) : Prop :=
  match r with
  | Val (FinalResponse c) => last = [AssistantMsg c]
  | Val IterationLimitReached => last = []
  | Exn _ => last = [] \/ cut_round last
  end.

(** Every request of [evs] carries the system prompt, the history [base]
    and then a front part of [added]. *)
Definition snapshots (prompt : pystr) (base added : list Msg)
    (evs : list Event) : Prop :=
  forall req, In (EvModelCall req) evs ->
  exists before later,
    req_messages req = SystemMsg prompt :: base ++ before
    /\ added = before ++ later.

(** Rounds and model calls of a loop of [n] passes that ended with [r]. *)
Definition loop_count (n : nat) (r : Res ChatExit) (rounds calls : nat)
  : Prop :=
  match r with
  | Val IterationLimitReached => rounds = n /\ calls = n
  | _ => rounds < n /\ calls = S rounds
  end.

(** An answer of the endpoint that carries at least one tool-call
    request. *)
Definition requests_tools (answer : Res Response) : bool :=
  match answer with
  | Val {| choices := m :: _ |} =>
    match tool_calls m with
    | Some (_ :: _) => true
    | _ => false
    end
  | _ => false
  end.

Section Responses.

Variable World : Type.
Variable create_completion : Request -> M World Response.
Variable call_handler : ToolFn -> pyval -> M World pystr.
Variable json_loads : pystr -> Decoding.
Variable json_dumps : pyval -> pystr.
Variable Fore : Palette.

(** What the endpoint answered in a loop of [n] passes from [s] on, pass
    by pass: the answer to the request of a pass, then, when the loop goes
    on, the answers of the passes after it. *)
Fixpoint loop_responses (n iteration : nat) (s : State World)
  : list (Res Response) :=
  match n with
  | O => []
  | S n' =>
    fst (create_completion (request_of (agent s)) (world s))
    :: match chat_iteration create_completion call_handler json_loads
                            json_dumps Fore iteration s with
       | (Val None, s1) => loop_responses n' (S iteration) s1
       | _ => []
       end
  end.

(** The answers of the endpoint in the user turn [chat user_input]. *)
Definition turn_responses (user_input : pystr) (s : State World)
  : list (Res Response) :=
  loop_responses max_iterations 0
                 (advance s [UserMsg user_input] (world s) []).

End Responses.

(** The four ways a pass can end. *)
Inductive pass_outcome {World : Type} (s : State World)
  : Res (option ChatExit) -> list Msg -> list Event -> Prop :=
| pass_raises e :
    pass_outcome s (Exn e) [] [EvModelCall (request_of (agent s))]
| pass_final c :
    pass_outcome s (Val (Some (FinalResponse c))) [AssistantMsg c]
                 [EvModelCall (request_of (agent s))]
| pass_round round evs :
    tool_round round -> model_calls evs = 0 ->
    pass_outcome s (Val None) round
                 (EvModelCall (request_of (agent s)) :: evs)
| pass_cut e round evs :
    cut_round round -> model_calls evs = 0 ->
    pass_outcome s (Exn e) round
                 (EvModelCall (request_of (agent s)) :: evs).

(** The texts the interactive loop handles itself. *)
Section Commands.

Variable lower : pystr -> pystr.

Definition is_quit (text : pystr) : bool :=
  match text with
  | [] => false
  | _ => existsb (pystr_eqb (lower text)) QUIT_WORDS
  end.

(** The command that empties the history. *)
Definition is_clear (text : pystr) : bool :=
  match text with
  | [] => false
  | _ => negb (is_quit text) && pystr_eqb (lower text) (py "/clear")
  end.

(** A text the loop handles itself: nothing, or one of the commands. *)
Definition is_command (text : pystr) : bool :=
  match text with
  | [] => true
  | _ =>
    existsb (pystr_eqb (lower text))
            (QUIT_WORDS ++ [py "/clear"; py "/tools"])
  end.

End Commands.

(** A computation that only prints. *)
Definition quiet {World : Type} (m : M (State World) unit) : Prop :=
  forall s, exists lines,
    m s = (Val tt, advance s [] (world s) (map EvPrint lines)).

(** * Properties *)

(** ** Text *)

Lemma pystr_eqb_eq (a b : pystr) : pystr_eqb a b = true <-> a = b.
Proof.
  unfold pystr_eqb. destruct (list_eq_dec N.eq_dec a b); split; congruence.
Qed.

Lemma pystr_eqb_refl (a : pystr) : pystr_eqb a a = true.
Proof. now apply pystr_eqb_eq. Qed.

Lemma pystr_eqb_neq (a b : pystr) : pystr_eqb a b = false <-> a <> b.
Proof.
  unfold pystr_eqb. destruct (list_eq_dec N.eq_dec a b); split; congruence.
Qed.

(** ** The definitions on small inputs *)

Example py_len_cjk : length (py "错误: ") = 4%nat.
Proof. reflexivity. Qed.

Example py_wrench : py "🔧" = [128295%N].
Proof. reflexivity. Qed.

Example format_4d_7 : format_4d 7 = py "   7".
Proof. reflexivity. Qed.

Example format_4d_12345 : format_4d 12345 = py "12345".
Proof. reflexivity. Qed.

Example rstrip_line : rstrip (py "x = 1  " ++ NL) = py "x = 1".
Proof. reflexivity. Qed.

Example py_slice_neg : py_slice [1; 2; 3; 4] 0 (-1) = [1; 2; 3].
Proof. reflexivity. Qed.

Example schema_of_glob :
  nth_error build_openai_tools 3 =
  Some {| tool_type := py "function";
          tool_function :=
            {| fn_name := py "glob";
               fn_description := py "Find files by pattern, sorted by mtime";
               fn_parameters :=
                 {| params_type := py "object";
                    properties :=
                      [(py "pat", {| prop_type := py "string" |});
                       (py "path", {| prop_type := py "string" |})];
                    required := [py "pat"] |} |} |}.
Proof. reflexivity. Qed.

Example loads_object :
  JsonLite.json_loads (JsonLite.text "{ 'path': 'notes.txt', 'limit': 20 }") =
  Decoded (PDict [(py "path", PStr (py "notes.txt")); (py "limit", PInt 20)]).
Proof. reflexivity. Qed.

Example loads_nested :
  JsonLite.json_loads (JsonLite.text "[1, [true, null], {'a': -3, 'a': 4}]") =
  Decoded (PList [PInt 1; PList [PBool true; PNone]; PDict [(py "a", PInt 4)]]).
Proof. reflexivity. Qed.

Example loads_deep : JsonLite.json_loads (JsonLite.text "[[[[[[0]]]]]]") =
  Decoded (PList [PList [PList [PList [PList [PList [PInt 0]]]]]]).
Proof. reflexivity. Qed.

Example loads_truncated :
  JsonLite.json_loads (JsonLite.text "{'path': 'notes") = JSONDecodeError.
Proof. reflexivity. Qed.

Example loads_leading_zero :
  JsonLite.json_loads (JsonLite.text "01") = JSONDecodeError.
Proof. reflexivity. Qed.

Example loads_trailing_comma :
  JsonLite.json_loads (py "[1,]") = JSONDecodeError.
Proof. reflexivity. Qed.

Example loads_long_integer :
  JsonLite.json_loads (py "[-" ++ repeat 49%N 4301 ++ py "]")
  = DecodeRaised (JsonLite.too_many_digits 4301)
  /\ JsonLite.json_loads (py "[1," ++ repeat 49%N 4301)
     = DecodeRaised (JsonLite.too_many_digits 4301)
  /\ JsonLite.json_loads (py "[-0, 007]") = JSONDecodeError
  /\ JsonLite.json_loads (py "[-0, 7]") = Decoded (PList [PInt 0; PInt 7]).
Proof. vm_compute. repeat split. Qed.

Example dumps_object :
  JsonLite.json_dumps
    (PDict [(py "path", PStr (py "notes.txt")); (py "limit", PInt 20)])
  = JsonLite.text "{'path': 'notes.txt', 'limit': 20}".
Proof. reflexivity. Qed.

(** ** Dictionaries *)

Section DictFacts.
Context {V : Type}.

Lemma dict_keys_set_same (k : pystr) (v : V) (d : list (pystr * V)) :
  In k (dict_keys (dict_set k v d)).
Proof.
  induction d as [|[k' v'] d IH]; cbn [dict_set].
  - now left.
  - destruct (pystr_eqb k k') eqn:E.
    + apply pystr_eqb_eq in E. subst. now left.
    + right. exact IH.
Qed.

Lemma dict_keys_set_other (k k0 : pystr) (v : V) (d : list (pystr * V)) :
  In k0 (dict_keys d) -> In k0 (dict_keys (dict_set k v d)).
Proof.
  induction d as [|[k' v'] d IH]; cbn [dict_set dict_keys map fst].
  - intros [].
  - intros [H|H]; destruct (pystr_eqb k k'); cbn [map fst In]; auto.
Qed.

Lemma dict_get_In (k : pystr) (v : V) (d : list (pystr * V)) :
  dict_get k d = Some v -> In (k, v) d.
Proof.
  induction d as [|[k' v'] d IH]; cbn [dict_get]; [discriminate|].
  destruct (pystr_eqb k k') eqn:E.
  - apply pystr_eqb_eq in E. intros [= ->]. subst. now left.
  - intros H. right. auto.
Qed.
End DictFacts.

(** ** Schema export *)

Lemma add_param_required props req p :
  snd (add_param (props, req) p) = req ++ required_of [p].
Proof.
  destruct p as [n t]. unfold add_param, required_of. cbn [filter snd fst].
  destruct (is_optional t); cbn [negb map snd fst].
  - rewrite app_nil_r.
    repeat match goal with |- context [if ?b then _ else _] => destruct b end;
      reflexivity.
  - repeat match goal with |- context [if ?b then _ else _] => destruct b end;
      reflexivity.
Qed.

Lemma fold_add_param_required params props req :
  snd (fold_left add_param params (props, req)) = req ++ required_of params.
Proof.
  revert props req.
  induction params as [|p params IH]; intros props req; cbn [fold_left].
  - unfold required_of. cbn. now rewrite app_nil_r.
  - destruct (add_param (props, req) p) as [props' req'] eqn:E.
    rewrite IH.
    assert (R : req' = req ++ required_of [p])
      by (rewrite <- (add_param_required props req p), E; reflexivity).
    rewrite R, <- app_assoc. f_equal.
    unfold required_of. cbn [filter].
    destruct (negb (is_optional (snd p))); reflexivity.
Qed.

Lemma add_param_keeps_keys props req p k :
  In k (dict_keys props) -> In k (dict_keys (fst (add_param (props, req) p))).
Proof.
  intros H. destruct p as [n t]. unfold add_param.
  destruct (is_optional t);
    repeat match goal with |- context [if ?b then _ else _] => destruct b end;
    cbn [fst]; auto using dict_keys_set_other.
Qed.

Lemma add_param_adds_key props req n t :
  known_type t = true ->
  In n (dict_keys (fst (add_param (props, req) (n, t)))).
Proof.
  unfold known_type, base_type, add_param. intros K.
  destruct (is_optional t);
    repeat match goal with
           | |- context [if pystr_eqb ?a ?b then _ else _] =>
             destruct (pystr_eqb a b)
           end;
    cbn [fst]; auto using dict_keys_set_same; discriminate.
Qed.

Lemma fold_add_param_keeps_keys params props req k :
  In k (dict_keys props) ->
  In k (dict_keys (fst (fold_left add_param params (props, req)))).
Proof.
  revert props req.
  induction params as [|p params IH]; intros props req H; cbn [fold_left].
  - exact H.
  - destruct (add_param (props, req) p) as [props' req'] eqn:E.
    apply IH. change props' with (fst (props', req')). rewrite <- E.
    now apply add_param_keeps_keys.
Qed.

Lemma fold_add_param_properties params props req n t :
  In (n, t) params -> known_type t = true ->
  In n (dict_keys (fst (fold_left add_param params (props, req)))).
Proof.
  revert props req.
  induction params as [|p params IH]; intros props req H K; [destruct H|].
  cbn [fold_left].
  destruct (add_param (props, req) p) as [props' req'] eqn:E.
  destruct H as [->|H].
  - apply fold_add_param_keeps_keys.
    change props' with (fst (props', req')). rewrite <- E.
    now apply add_param_adds_key.
  - now apply IH.
Qed.

Lemma required_of_In params n t :
  In (n, t) params -> is_optional t = false -> In n (required_of params).
Proof.
  intros H O. unfold required_of.
  apply (in_map fst _ (n, t)), filter_In. split; [exact H|].
  cbn. now rewrite O.
Qed.

Lemma required_of_not_In params n t :
  NoDup (map fst params) ->
  In (n, t) params -> is_optional t = true -> ~ In n (required_of params).
Proof.
  unfold required_of.
  induction params as [|[n' t'] params IH]; intros ND H O; [destruct H|].
  cbn [map fst] in ND. inversion ND as [|? ? Hn ND']; subst.
  cbn [filter snd]. destruct H as [[= -> ->]|H].
  - rewrite O. cbn [negb]. intros C. apply Hn.
    apply in_map_iff in C. destruct C as [[n0 t0] [<- C]].
    apply filter_In in C. apply (in_map fst _ _ (proj1 C)).
  - destruct (negb (is_optional t')); cbn [map fst In]; [|now apply IH].
    intros [<-|C].
    + apply Hn. apply (in_map fst _ _ H).
    + now apply IH in C.
Qed.

(** What the schema of one tool says about one of its parameters. *)
Lemma tool_schema_params name description params func param_name param_type :
  NoDup (map fst params) ->
  forallb (fun p => known_type (snd p)) params = true ->
  In (param_name, param_type) params ->
  let decl := fn_parameters (tool_function
                (tool_schema (name, (description, params, func)))) in
  (is_optional param_type = false -> In param_name (required decl)) /\
  (is_optional param_type = true ->
   In param_name (dict_keys (properties decl)) /\
   ~ In param_name (required decl)).
Proof.
  intros ND K H. unfold tool_schema.
  destruct (fold_left add_param params ([], [])) as [props req] eqn:E.
  cbn [tool_function fn_parameters required properties].
  assert (R : req = required_of params).
  { change req with (snd (props, req)). rewrite <- E.
    now rewrite fold_add_param_required. }
  assert (P : In param_name (dict_keys props)).
  { change props with (fst (props, req)). rewrite <- E.
    apply fold_add_param_properties with (t := param_type); [exact H|].
    rewrite forallb_forall in K. apply (K _ H). }
  subst req. split.
  - intros O. eauto using required_of_In.
  - intros O. split; [exact P|]. eauto using required_of_not_In.
Qed.

Lemma distinct_NoDup (l : list pystr) : distinct l = true -> NoDup l.
Proof.
  induction l as [|x r IH]; cbn [distinct]; intros H; constructor.
  - apply andb_prop in H. destruct H as [H _].
    intros C. apply negb_true_iff in H.
    assert (E : existsb (pystr_eqb x) r = true)
      by (apply existsb_exists; exists x; auto using pystr_eqb_refl).
    congruence.
  - apply andb_prop in H. tauto.
Qed.

Lemma TOOLS_well_formed :
  distinct (dict_keys TOOLS) = true /\ forallb well_formed_tool TOOLS = true.
Proof. split; vm_compute; reflexivity. Qed.

(** C6: the schema export has exactly one schema object per registered
    tool, in the order of the registry and under the tool's name; in the
    object of a tool, every parameter whose declared type lacks the trailing
    [?] is listed in ["required"], and every parameter whose type carries it
    is a key of ["properties"] and is not listed in ["required"]. *)
Theorem build_openai_tools_exact :
  map (fun t => fn_name (tool_function t)) build_openai_tools = dict_keys TOOLS
  /\ NoDup (dict_keys TOOLS)
  /\ forall i name description params func,
       nth_error TOOLS i = Some (name, (description, params, func)) ->
       exists schema,
         nth_error build_openai_tools i = Some schema /\
         fn_name (tool_function schema) = name /\
         forall param_name param_type,
           In (param_name, param_type) params ->
           let decl := fn_parameters (tool_function schema) in
           (is_optional param_type = false -> In param_name (required decl)) /\
           (is_optional param_type = true ->
            In param_name (dict_keys (properties decl)) /\
            ~ In param_name (required decl)).
Proof.
  split; [reflexivity|]. split.
  - apply distinct_NoDup, TOOLS_well_formed.
  - intros i name description params func H.
    exists (tool_schema (name, (description, params, func))).
    split; [|split].
    + unfold build_openai_tools. now rewrite nth_error_map, H.
    + unfold tool_schema.
      now destruct (fold_left add_param params ([], [])).
    + intros param_name param_type Hp.
      destruct TOOLS_well_formed as [_ WF].
      rewrite forallb_forall in WF.
      specialize (WF _ (nth_error_In _ _ H)). cbn [well_formed_tool] in WF.
      apply andb_prop in WF. destruct WF as [D K].
      apply tool_schema_params; auto using distinct_NoDup.
Qed.

(** ** The read tool *)



Lemma numbered_nth (i : Z) (lines : list pystr) (k : nat) :
  nth_error (numbered i lines) k
  = option_map (fun line => format_4d (i + Z.of_nat k) ++ py " | " ++ rstrip line)
               (nth_error lines k).
Proof.
  revert i k. induction lines as [|l r IH]; intros i [|k];
    cbn [numbered nth_error option_map]; try reflexivity.
  - now rewrite Z.add_0_r.
  - rewrite IH. destruct (nth_error r k); cbn [option_map]; [|reflexivity].
    do 3 f_equal. lia.
Qed.


Example read_ignores_limit :
  let readlines := fun _ : pystr =>
    Val [py "alpha" ++ NL; py "beta  " ++ NL; py "gamma"] in
  read readlines (py "notes.txt") None (Some 1%Z)
    = join NL [py "   1 | alpha"; py "   2 | beta"; py "   3 | gamma"]
  /\ read readlines (py "notes.txt") (Some 2%Z) (Some 1%Z) = py "   2 | beta"
  /\ read readlines (py "notes.txt") (Some 2%Z) None
    = join NL [py "   2 | beta"; py "   3 | gamma"]
  /\ read readlines (py "notes.txt") (Some 7%Z) None = py "(空文件)".
Proof. repeat split; reflexivity. Qed.

(** ** Dispatch and the chat loop *)

Lemma model_calls_app (a b : list Event) :
  model_calls (a ++ b) = model_calls a + model_calls b.
Proof.
  induction a as [|[req|line|name args] a IH]; cbn [app model_calls]; lia.
Qed.

Lemma answers_length calls results :
  answers calls results -> length results = length calls.
Proof. intros H. symmetry. exact (Forall2_length H). Qed.

Lemma answers_ids calls results :
  answers calls results ->
  forall i tc, nth_error calls i = Some tc ->
  exists content, nth_error results i = Some (ToolMsg (tc_id tc) content).
Proof.
  induction 1 as [|tc m calls results [c ->] _ IH]; intros i tc' H.
  - now destruct i.
  - destruct i as [|i]; cbn [nth_error] in *.
    + injection H as <-. now exists c.
    + now apply IH.
Qed.

Section AgentFacts.

Variable World : Type.
Variable create_completion : Request -> M World Response.
Variable call_handler : ToolFn -> pyval -> M World pystr.
Variable json_loads : pystr -> Decoding.
Variable json_dumps : pyval -> pystr.
Variable Fore : Palette.

#[local] Abbreviation execute_tool := (execute_tool call_handler).
#[local] Abbreviation handle_tool_call :=
  (handle_tool_call call_handler json_loads json_dumps Fore).
#[local] Abbreviation chat_iteration :=
  (chat_iteration create_completion call_handler json_loads json_dumps Fore).
#[local] Abbreviation chat_loop :=
  (chat_loop create_completion call_handler json_loads json_dumps Fore).
#[local] Abbreviation chat_run :=
  (chat_run create_completion call_handler json_loads json_dumps Fore).
#[local] Abbreviation chat :=
  (chat create_completion call_handler json_loads json_dumps Fore).
#[local] Abbreviation loop_responses :=
  (loop_responses create_completion call_handler json_loads json_dumps Fore).
#[local] Abbreviation turn_responses :=
  (turn_responses create_completion call_handler json_loads json_dumps Fore).
#[local] Abbreviation State := (State World).

Lemma advance_advance (s : State) a1 w1 e1 a2 w2 e2 :
  advance (advance s a1 w1 e1) a2 w2 e2 = advance s (a1 ++ a2) w2 (e1 ++ e2).
Proof.
  unfold advance. cbn [agent world trace set_messages messages model tools
                       system_prompt].
  now rewrite <- !app_assoc.
Qed.

Lemma advance_nothing (s : State) : advance s [] (world s) [] = s.
Proof.
  destruct s as [[m t h p] w tr]. unfold advance, set_messages.
  cbn [agent world trace messages model tools system_prompt].
  now rewrite !app_nil_r.
Qed.

(** *** execute_tool *)

(** Whatever the name and the arguments, [execute_tool] returns. *)
Lemma execute_tool_returns (name : pystr) (arguments : pyval) (w : World) :
  exists result w', execute_tool name arguments w = (Val result, w').
Proof.
  unfold execute_tool.
  destruct (dict_get name TOOLS) as [[[d p] f]|].
  - unfold try_except. destruct (call_handler f arguments w) as [[r|e] w'].
    + now exists r, w'.
    + now eexists _, w'.
  - now eexists _, w.
Qed.

(** C3: for a name that is not a key of the registry, and any arguments,
    [execute_tool] returns (it does not raise) the text that starts with
    the unknown-tool marker and ends with the name, and leaves the world
    as it was. *)
Theorem execute_tool_unknown (name : pystr) (arguments : pyval) (w : World) :
  dict_mem name TOOLS = false ->
  execute_tool name arguments w = (Val (py "错误: 未知工具 " ++ name), w).
Proof.
  unfold dict_mem, execute_tool.
  destruct (dict_get name TOOLS); [discriminate|reflexivity].
Qed.

(** C4: for a registered tool and any arguments, when the call of the
    handler raises an exception described by [e], [execute_tool] returns
    (it does not raise) the text made of the error marker followed by
    [e]. *)
Theorem execute_tool_catches
    (name description : pystr) (params : list (pystr * pystr))
    (func : ToolFn) (arguments : pyval) (w w' : World) (e : pystr) :
  dict_get name TOOLS = Some (description, params, func) ->
  call_handler func arguments w = (Exn e, w') ->
  execute_tool name arguments w = (Val (py "工具执行错误: " ++ e), w').
Proof.
  intros H C. unfold execute_tool, try_except.
  now rewrite H, C.
Qed.

(** *** The loop over the tool calls *)

(** A call whose arguments decode is run, shown and answered; a call
    whose arguments make the decoder raise something else than
    [JSONDecodeError] ends there, with nothing done. *)
Lemma handle_tool_call_spec (tool_call : ToolCall) (s : State) :
  match tool_args json_loads tool_call with
  | Val arguments =>
    exists result w',
      execute_tool (tc_name tool_call) arguments (world s) = (Val result, w')
      /\ handle_tool_call tool_call s =
         (Val tt,
          advance s [ToolMsg (tc_id tool_call) result] w'
            [EvPrint (call_line json_dumps Fore (tc_name tool_call)
                                arguments);
             EvDispatch (tc_name tool_call) arguments;
             EvPrint (result_line Fore result)])
  | Exn e => handle_tool_call tool_call s = (Exn e, s)
  end.
Proof.
  unfold handle_tool_call, bind, lift_res.
  destruct (tool_args json_loads tool_call) as [arguments|e]; [|reflexivity].
  destruct (execute_tool_returns (tc_name tool_call) arguments (world s))
    as (r & w' & E).
  exists r, w'. split; [exact E|].
  unfold print, emit, in_world, append_message.
  cbn [advance world]. rewrite E.
  now rewrite !advance_advance.
Qed.

(** The loop over the requests of a round: it answers them all, or it is
    ended by an exception after answering some of them. *)
Lemma for_each_handle_spec (calls : list ToolCall) (s : State) :
  exists r results w' evs,
    for_each calls handle_tool_call s = (r, advance s results w' evs)
    /\ model_calls evs = 0
    /\ match r with
       | Val _ => answers calls results
       | Exn _ =>
         length results < length calls
         /\ answers (firstn (length results) calls) results
       end.
Proof.
  revert s. induction calls as [|tc calls IH]; intros s.
  - exists (Val tt), [], (world s), []. cbn [for_each]. unfold ret.
    rewrite advance_nothing. repeat split. constructor.
  - pose proof (handle_tool_call_spec tc s) as H.
    cbn [for_each]. unfold bind at 1.
    destruct (tool_args json_loads tc) as [arguments|e].
    + destruct H as (r & w1 & _ & H). rewrite H.
      match goal with |- context [for_each calls _ ?s1] =>
        destruct (IH s1) as (r' & results & w' & evs & E & N & A)
      end.
      rewrite E, advance_advance.
      exists r', (ToolMsg (tc_id tc) r :: results), w'. eexists.
      split; [reflexivity|]. split.
      * rewrite model_calls_app, N. reflexivity.
      * destruct r' as [u|e].
        -- constructor; [now exists r|exact A].
        -- destruct A as [L A]. cbn [length firstn]. split; [lia|].
           constructor; [now exists r|exact A].
    + rewrite H. exists (Exn e), [], (world s), [].
      rewrite advance_nothing. repeat split; [cbn; lia|constructor].
Qed.

(** *** One pass of the loop *)

Lemma chat_iteration_spec (iteration : nat) (s : State) :
  exists r added w' evs,
    chat_iteration iteration s = (r, advance s added w' evs)
    /\ pass_outcome s r added evs.
Proof.
  unfold chat_iteration, call_model, bind, get_agent, emit, in_world,
    first_choice.
  cbn [advance world agent].
  destruct (create_completion (request_of (agent s)) (world s))
    as [[[cs]|e] w1].
  2:{ rewrite advance_advance. eexists _, _, w1, _.
      split; [reflexivity|]. constructor. }
  cbn [choices].
  destruct cs as [|m rest].
  { unfold raise. rewrite advance_advance. eexists _, _, w1, _.
    split; [reflexivity|]. constructor. }
  unfold ret at 1. rewrite advance_advance.
  assert (final :
    forall s1 : State, s1 = advance s [] w1 [EvModelCall (request_of (agent s))] ->
    exists r added w' evs,
      bind (append_message (AssistantMsg (content m)))
           (fun _ => ret (Some (FinalResponse (content m)))) s1
      = (r, advance s added w' evs)
      /\ pass_outcome s r added evs).
  { intros s1 ->. unfold bind, append_message, ret. cbn [advance world].
    rewrite advance_advance. eexists _, _, w1, _.
    split; [reflexivity|]. constructor. }
  cbn [app].
  destruct (tool_calls m) as [[|tc calls]|]; try exact (final _ eq_refl).
  unfold bind, print, emit, append_message. cbn [advance world app].
  rewrite !advance_advance.
  match goal with |- context [for_each _ _ ?s1] =>
    destruct (for_each_handle_spec (tc :: calls) s1)
      as (r' & results & w' & evs & E & N & A)
  end.
  rewrite E. destruct r' as [u|e]; unfold ret; rewrite advance_advance;
    eexists _, _, w', _; (split; [reflexivity|]); cbn [app].
  - apply pass_round; [|exact N].
    now exists (content m), tc, calls, results.
  - apply pass_cut; [|exact N]. destruct A as [L A].
    now exists (content m), tc, calls, results.
Qed.

Lemma model_calls_none (evs : list Event) (req : Request) :
  model_calls evs = 0 -> ~ In (EvModelCall req) evs.
Proof.
  induction evs as [|[r|l|n a] evs IH]; cbn [model_calls In]; intros H C.
  - exact C.
  - discriminate.
  - destruct C as [C|C]; [discriminate|]. now apply IH.
  - destruct C as [C|C]; [discriminate|]. now apply IH.
Qed.

(** *** The whole loop *)

Lemma chat_loop_spec (n iteration : nat) (s : State) :
  exists r rounds last w' evs,
    chat_loop n iteration s = (r, advance s (concat rounds ++ last) w' evs)
    /\ Forall tool_round rounds
    /\ turn_end r last
    /\ snapshots (system_prompt (agent s)) (messages (agent s))
                 (concat rounds ++ last) evs
    /\ loop_count n r (length rounds) (model_calls evs).
Proof.
  revert iteration s. induction n as [|n IH]; intros i s.
  - exists (Val IterationLimitReached), [], [], (world s), [].
    cbn [chat_loop concat app turn_end]. unfold ret. rewrite advance_nothing.
    repeat split; [constructor|]. intros req [].
  - destruct (chat_iteration_spec i s) as (r0 & added & w1 & evs1 & E & P).
    cbn [chat_loop]. unfold bind at 1. rewrite E.
    assert (first : forall later,
      exists before later',
        req_messages (request_of (agent s))
        = SystemMsg (system_prompt (agent s)) :: messages (agent s) ++ before
        /\ later = before ++ later').
    { intros later. exists [], later. now rewrite app_nil_r. }
    inversion P as [e|c|round evs R N|e round evs R N]; subst.
    + exists (Exn e), [], [], w1, [EvModelCall (request_of (agent s))].
      cbn [concat turn_end app length model_calls loop_count].
      repeat split; [constructor|now left| |lia].
      intros req [[= <-]|[]]. apply first.
    + exists (Val (FinalResponse c)), [], [AssistantMsg c], w1,
        [EvModelCall (request_of (agent s))].
      cbn [concat turn_end app length model_calls loop_count]. unfold ret.
      repeat split; [constructor| |lia].
      intros req [[= <-]|[]]. apply first.
    + match goal with |- context [chat_loop n _ ?s1] =>
        destruct (IH (S i) s1)
          as (r & rounds & last & w' & evs' & L & F & T & S' & C)
      end.
      exists r, (added :: rounds), last, w',
        ((EvModelCall (request_of (agent s)) :: evs) ++ evs').
      rewrite L, advance_advance. cbn [concat]. rewrite <- app_assoc.
      split; [reflexivity|]. split; [now constructor|].
      split; [exact T|]. split.
      * intros req H. cbn [app In] in H.
        destruct H as [[= <-]|H]; [apply first|].
        apply in_app_or in H. destruct H as [H|H];
          [now apply model_calls_none in H|].
        destruct (S' req H) as (before & later & Q & D).
        exists (added ++ before), later.
        cbn [advance agent set_messages messages system_prompt] in Q.
        rewrite Q, D, <- !app_assoc. now split.
      * cbn [app model_calls length]. rewrite model_calls_app, N.
        cbn [plus]. unfold loop_count in *.
        destruct r as [[c|]|e]; lia.
    + exists (Exn e), [], added, w1,
        (EvModelCall (request_of (agent s)) :: evs).
      cbn [concat turn_end app length model_calls loop_count].
      repeat split; [constructor|now right| |lia|lia].
      intros req H. cbn [In] in H.
      destruct H as [[= <-]|H]; [apply first|].
      now apply model_calls_none in H.
Qed.

(** A pass in which the model asks for tools: the assistant turn is
    recorded, then the requests are answered in turn, all of them unless
    an exception ends the pass. *)
Lemma chat_iteration_calls (iteration : nat) (s : State)
    (m : Message) (rest : list Message) (w1 : World)
    (tc : ToolCall) (calls : list ToolCall) :
  create_completion (request_of (agent s)) (world s)
    = (Val {| choices := m :: rest |}, w1) ->
  tool_calls m = Some (tc :: calls) ->
  exists r results w' evs,
    chat_iteration iteration s
    = (r,
       advance s (AssistantCalls (content m) (tc :: calls) :: results) w'
         (EvModelCall (request_of (agent s))
          :: EvPrint (round_line Fore iteration) :: evs))
    /\ model_calls evs = 0
    /\ match r with
       | Val step => step = None /\ answers (tc :: calls) results
       | Exn _ =>
         length results < length (tc :: calls)
         /\ answers (firstn (length results) (tc :: calls)) results
       end.
Proof.
  intros C T.
  unfold chat_iteration, call_model, bind, get_agent, print, emit, in_world,
    first_choice, append_message.
  cbn [advance world agent]. rewrite C. cbn [choices]. unfold ret at 1.
  rewrite T. cbv beta iota. cbn [advance world app].
  rewrite !advance_advance.
  match goal with |- context [for_each _ _ ?s1] =>
    destruct (for_each_handle_spec (tc :: calls) s1)
      as (r' & results & w' & evs & E & N & A)
  end.
  rewrite E. destruct r' as [u|e]; unfold ret; rewrite advance_advance.
  - now exists (Val None), results, w', evs.
  - now exists (Exn e), results, w', evs.
Qed.

(** C2, as the code has it: when the model answers a pass with the
    tool-call requests [tc :: calls] and no exception ends the pass, the
    pass has appended the assistant turn carrying them and then exactly as
    many tool-result turns, the k-th under the identifier of the k-th
    request; no request goes to the model in between, and the request of
    the next pass carries all of them. *)
Theorem tool_results_follow_requests (iteration : nat) (s s' : State)
    (m : Message) (rest : list Message) (w1 : World)
    (tc : ToolCall) (calls : list ToolCall) (step : option ChatExit) :
  create_completion (request_of (agent s)) (world s)
    = (Val {| choices := m :: rest |}, w1) ->
  tool_calls m = Some (tc :: calls) ->
  chat_iteration iteration s = (Val step, s') ->
  exists results,
    step = None
    /\ messages (agent s')
       = messages (agent s)
         ++ AssistantCalls (content m) (tc :: calls) :: results
    /\ length results = length (tc :: calls)
    /\ (forall k c, nth_error (tc :: calls) k = Some c ->
        exists text, nth_error results k = Some (ToolMsg (tc_id c) text))
    /\ (exists evs,
         trace s' = trace s ++ EvModelCall (request_of (agent s)) :: evs
         /\ model_calls evs = 0)
    /\ req_messages (request_of (agent s'))
       = req_messages (request_of (agent s))
         ++ AssistantCalls (content m) (tc :: calls) :: results.
Proof.
  intros C T R.
  destruct (chat_iteration_calls iteration s C T)
    as (r & results & w' & evs & E & N & A).
  rewrite R in E. destruct r as [x|e]; [|discriminate].
  injection E as -> ->. destruct A as [-> A].
  exists results. split; [reflexivity|].
  cbn [advance agent trace set_messages messages request_of req_messages
       system_prompt].
  repeat split.
  - now apply answers_length.
  - now apply answers_ids.
  - eexists. split; [reflexivity|exact N].
Qed.



(** *** A user turn *)

(** What a user turn leaves behind, however it ends: the user turn, the
    completed rounds, and then the answer of the model, or nothing, or a
    round cut short. *)
Lemma chat_run_spec (user_input : pystr) (s : State) :
  exists r rounds last w' evs,
    chat_run user_input s
    = (r, advance s (UserMsg user_input :: concat rounds ++ last) w' evs)
    /\ Forall tool_round rounds
    /\ turn_end r last
    /\ snapshots (system_prompt (agent s))
                 (messages (agent s) ++ [UserMsg user_input])
                 (concat rounds ++ last) evs
    /\ loop_count max_iterations r (length rounds) (model_calls evs).
Proof.
  unfold chat_run, bind, append_message.
  destruct (chat_loop_spec max_iterations 0
              (advance s [UserMsg user_input] (world s) []))
    as (r & rounds & last & w' & evs & L & F & T & S' & C).
  exists r, rounds, last, w', evs. rewrite L, advance_advance.
  now repeat split.
Qed.

(** A loop that returns although every answer it got carried a tool-call
    request has made all its passes. *)
Lemma chat_loop_requests (n iteration : nat) (s s' : State) (e : ChatExit) :
  forallb requests_tools (loop_responses n iteration s) = true ->
  chat_loop n iteration s = (Val e, s') ->
  e = IterationLimitReached
  /\ length (loop_responses n iteration s) = n
  /\ exists evs, trace s' = trace s ++ evs /\ model_calls evs = n.
Proof.
  revert iteration s. induction n as [|n IH]; intros i s R L.
  - cbn [chat_loop] in L. unfold ret in L. injection L as <- <-.
    repeat split. exists []. now rewrite app_nil_r.
  - cbn [loop_responses forallb] in R. apply andb_prop in R.
    destruct R as [R0 R].
    destruct (create_completion (request_of (agent s)) (world s))
      as [[[[|m rest]]|e0] w1] eqn:C; cbn [fst requests_tools] in R0;
      try discriminate.
    destruct (tool_calls m) as [[|tc calls]|] eqn:T; try discriminate.
    destruct (chat_iteration_calls i s C T)
      as (r & results & w' & evs & E & N & A).
    cbn [chat_loop] in L. unfold bind in L. rewrite E in L, R.
    destruct r as [step|e1]; [|discriminate].
    destruct A as [-> A].
    destruct (IH (S i) _ R L) as (-> & Len & evs' & T' & N').
    split; [reflexivity|]. split.
    + cbn [loop_responses length]. rewrite E. now rewrite Len.
    + eexists. rewrite T'. cbn [advance trace]. rewrite <- app_assoc.
      split; [reflexivity|]. rewrite model_calls_app.
      cbn [app model_calls]. lia.
Qed.

(** C1, as the code has it: a user turn in which every answer of the
    model carries at least one tool-call request, and which no exception
    ends, has sent exactly 10 requests to the model, and [chat] returns
    the iteration-limit message. *)
Theorem chat_stops_at_ten_calls
    (user_input : pystr) (v : option pystr) (s s' : State) :
  forallb requests_tools (turn_responses user_input s) = true ->
  chat user_input s = (Val v, s') ->
  v = Some ITERATION_LIMIT_MESSAGE
  /\ chat_run user_input s = (Val IterationLimitReached, s')
  /\ length (turn_responses user_input s) = 10
  /\ exists evs, trace s' = trace s ++ evs /\ model_calls evs = 10.
Proof.
  intros R H. unfold chat, bind in H.
  destruct (chat_run user_input s) as [[e|x] s1] eqn:Q; [|discriminate].
  unfold ret in H. injection H as <- <-.
  unfold chat_run, bind, append_message in Q.
  destruct (chat_loop_requests _ _ _ R Q) as (-> & Len & evs & T & N).
  cbn [advance trace] in T. rewrite app_nil_r in T.
  split; [reflexivity|]. split; [reflexivity|]. split; [exact Len|].
  now exists evs.
Qed.

(** C8: a user turn that ends at the iteration limit returns the
    iteration-limit message, and the history then is the history before
    the turn, the user turn, and the 10 rounds of the turn, each an
    assistant turn with tool-call requests followed by their tool-result
    turns; every history sent to the model during the turn is a front part
    of that final history. *)
Theorem iteration_limit_keeps_history
    (user_input : pystr) (s s' : State) :
  chat_run user_input s = (Val IterationLimitReached, s') ->
  chat user_input s = (Val (Some ITERATION_LIMIT_MESSAGE), s')
  /\ exists rounds evs,
       length rounds = 10
       /\ Forall tool_round rounds
       /\ messages (agent s')
          = messages (agent s) ++ UserMsg user_input :: concat rounds
       /\ trace s' = trace s ++ evs
       /\ model_calls evs = 10
       /\ forall req, In (EvModelCall req) evs ->
          exists later,
            SystemMsg (system_prompt (agent s')) :: messages (agent s')
            = req_messages req ++ later.
Proof.
  intros R. split.
  - unfold chat, bind. now rewrite R.
  - destruct (chat_run_spec user_input s)
      as (r & rounds & last & w' & evs & E & F & T & S' & C).
    rewrite R in E. injection E as <- ->.
    cbn [turn_end loop_count] in *. subst last. rewrite app_nil_r in *.
    exists rounds, evs.
    cbn [advance agent trace set_messages messages system_prompt].
    destruct C as [C1 C2]. repeat split; auto.
    intros req H. destruct (S' req H) as (before & later & Q & D).
    exists later. rewrite Q, D. cbn [app]. now rewrite <- !app_assoc.
Qed.

(** C9: after [clear_history] the history is empty, whatever it held
    before. *)
Theorem clear_history_empties (s : State) :
  exists s',
    clear_history s = (Val tt, s')
    /\ messages (agent s') = [].
Proof.
  eexists. unfold clear_history, bind, print, emit. split; [reflexivity|].
  reflexivity.
Qed.
End AgentFacts.

Example str_functions_on_small_inputs :
  str_count (py "aa") (py "aaa") = 1
  /\ str_replace (py "aa") (py "b") (py "aaa") = py "ba"
  /\ str_replace [] (py "-") (py "ab") = py "-a-b-"
  /\ str_count [] (py "ab") = 3
  /\ str_replace_first (py "a") (py "xy") (py "banana") = py "bxynana"
  /\ str_replace_first [] (py "x") (py "ab") = py "xab"
  /\ str_contains (py "nan") (py "banana") = true
  /\ str_contains (py "nab") (py "banana") = false.
Proof. repeat split; reflexivity. Qed.

(** ** Searching and replacing in text *)

Lemma starts_with_split (p s : pystr) :
  starts_with p s = true -> s = p ++ skipn (length p) s.
Proof.
  revert s. induction p as [|a p IH]; intros [|b s] H; cbn in *;
    try reflexivity; try discriminate.
  apply andb_prop in H. destruct H as [E H].
  apply N.eqb_eq in E. subst. f_equal. now apply IH.
Qed.

Lemma starts_with_app (p r : pystr) : starts_with p (p ++ r) = true.
Proof.
  induction p as [|a p IH]; cbn; [reflexivity|].
  now rewrite N.eqb_refl, IH.
Qed.

Lemma starts_with_length (p s : pystr) :
  starts_with p s = true -> length p <= length s.
Proof.
  intros H. pose proof (f_equal (@length _) (starts_with_split p s H)) as L.
  rewrite length_app in L. lia.
Qed.

(** Without an occurrence nothing is replaced. *)
Lemma replace_from_none (old new : pystr) (k : nat) (s : pystr) :
  count_from old k s = 0 -> replace_from old new k s = skipn k s.
Proof.
  revert k. induction s as [|c r IH]; intros k H.
  - now destruct k.
  - cbn [count_from replace_from] in *. destruct k as [|k].
    + destruct (starts_with old (c :: r)); [discriminate|].
      cbn [skipn]. f_equal. now rewrite IH.
    + cbn [skipn]. now apply IH.
Qed.


(** Every occurrence trades the length of [old] for the length of [new]. *)
Lemma replace_from_length (old new : pystr) (k : nat) (s : pystr) :
  old <> [] -> k <= length s ->
  length (replace_from old new k s) + count_from old k s * length old
  = length s - k + count_from old k s * length new.
Proof.
  intros NE. revert k. induction s as [|c r IH]; intros k K.
  - cbn in *. lia.
  - cbn [replace_from count_from length] in *. destruct k as [|k].
    + destruct (starts_with old (c :: r)) eqn:E.
      * apply starts_with_length in E. cbn [length] in E.
        assert (L : 0 < length old) by (destruct old; [congruence|cbn; lia]).
        specialize (IH (length old - 1) ltac:(lia)).
        rewrite length_app. lia.
      * specialize (IH 0 ltac:(lia)). cbn [length]. lia.
    + specialize (IH k ltac:(lia)). lia.
Qed.

(** [sub in s] says whether [s.count(sub)] is positive. *)
Lemma contains_count_from (sub : pystr) (k : nat) (s : pystr) :
  sub <> [] ->
  str_contains sub (skipn k s) = (0 <? count_from sub k s)%nat.
Proof.
  intros NE. revert k. induction s as [|c r IH]; intros k.
  - destruct k; cbn; now destruct sub.
  - destruct k as [|k]; cbn [skipn count_from str_contains].
    + destruct (starts_with sub (c :: r)); [reflexivity|].
      cbn [orb]. exact (IH 0).
    + apply IH.
Qed.

Lemma str_contains_count (sub s : pystr) :
  str_contains sub s = (0 <? str_count sub s)%nat.
Proof.
  destruct sub as [|a sub].
  - cbn [str_count]. destruct s; reflexivity.
  - exact (contains_count_from 0 s (sub := a :: sub) ltac:(discriminate)).
Qed.

(** With at most one occurrence, replacing all and replacing the first
    are the same. *)
Lemma replace_from_first (old new s : pystr) :
  old <> [] -> count_from old 0 s <= 1 ->
  replace_from old new 0 s = str_replace_first old new s.
Proof.
  intros NE. induction s as [|c r IH]; intros H.
  - destruct old; [congruence|reflexivity].
  - cbn [replace_from count_from str_replace_first] in *.
    destruct (starts_with old (c :: r)) eqn:E.
    + rewrite replace_from_none by lia.
      destruct old as [|a old]; [congruence|].
      replace (length (a :: old) - 1) with (length old) by (cbn; lia).
      reflexivity.
    + f_equal. now apply IH.
Qed.

Lemma str_replace_first_once (old new s : pystr) :
  str_count old s <= 1 -> str_replace old new s = str_replace_first old new s.
Proof.
  destruct old as [|a old]; cbn [str_count str_replace].
  - intros H. destruct s as [|c r]; [|cbn in H; lia]. cbn. now rewrite app_nil_r.
  - now apply replace_from_first.
Qed.

(** The first occurrence is the one [replace(old, new, 1)] replaces. *)
Lemma str_replace_first_split (old new s : pystr) :
  str_contains old s = true ->
  exists before after,
    s = before ++ old ++ after
    /\ str_replace_first old new s = before ++ new ++ after
    /\ (forall n, n < length before -> starts_with old (skipn n s) = false).
Proof.
  induction s as [|c r IH]; intros H.
  - destruct old; [|discriminate]. exists [], [].
    split; [reflexivity|]. split; [now rewrite app_nil_r|].
    intros n L. cbn in L. lia.
  - cbn [str_contains str_replace_first] in *.
    destruct (starts_with old (c :: r)) eqn:E.
    + exists [], (skipn (length old) (c :: r)). cbn [app length].
      split; [now apply starts_with_split|]. split; [reflexivity|].
      intros n L. lia.
    + cbn [orb] in H. destruct (IH H) as (before & after & S1 & S2 & S3).
      exists (c :: before), after. cbn [app length].
      split; [now rewrite S1|]. split; [now rewrite S2|].
      intros [|n] L; cbn [skipn]; [exact E|]. apply S3. lia.
Qed.

Lemma str_replace_first_absent (old new s : pystr) :
  str_contains old s = false -> str_replace_first old new s = s.
Proof.
  induction s as [|c r IH]; cbn [str_contains str_replace_first].
  - now destruct old.
  - destruct (starts_with old (c :: r)); [discriminate|].
    cbn [orb]. intros H. f_equal. now apply IH.
Qed.



Lemma str_replace_absent (old new s : pystr) :
  str_count old s = 0 -> str_replace old new s = s.
Proof.
  destruct old as [|a old]; cbn [str_count str_replace]; [discriminate|].
  intros H. now rewrite replace_from_none.
Qed.

Lemma length_flat_map_cons (new s : pystr) :
  length (flat_map (fun c => c :: new) s) = length s * S (length new).
Proof.
  induction s as [|c r IH]; cbn [flat_map length]; [reflexivity|].
  rewrite length_app, IH. cbn [length]. lia.
Qed.

Lemma str_replace_length (old new s : pystr) :
  length (str_replace old new s) + str_count old s * length old
  = length s + str_count old s * length new.
Proof.
  destruct old as [|a old]; cbn [str_count str_replace].
  - rewrite length_app, length_flat_map_cons. cbn [length]. lia.
  - pose proof (replace_from_length (old := a :: old) new (k := 0) s
                  ltac:(discriminate) ltac:(lia)).
    lia.
Qed.

(** ** The edit tool *)

Section EditFacts.

Variable World : Type.
Variable read_text : pystr -> M World pystr.
Variable write_text : pystr -> pystr -> M World unit.

#[local] Abbreviation edit := (edit read_text write_text).
#[local] Abbreviation write_and_report := (write_and_report write_text).

Lemma edit_report_one : edit_report 1 = py "成功替换 1 处内容".
Proof. reflexivity. Qed.

(** X1: when [old] does not occur in the file, [edit] still writes the
    file, with the text it read, and answers that nothing matched; [all]
    makes no difference. *)
Theorem edit_not_found
    (path old new content : pystr) (all : bool) (w w1 : World) :
  read_text path w = (Val content, w1) ->
  str_count old content = 0 ->
  edit path old new all w
  = write_and_report path content (py "未找到匹配内容") w1.
Proof.
  intros R C. unfold edit, write_and_report, try_except, bind.
  rewrite R. destruct all.
  - now rewrite C, str_replace_absent.
  - rewrite C. cbn [Nat.ltb Nat.leb].
    assert (N : str_contains old content = false)
      by (now rewrite str_contains_count, C).
    now rewrite N, str_replace_first_absent.
Qed.

(** X2: when [old] occurs exactly once, [edit] writes the text with that
    occurrence, and nothing else, replaced by [new], and answers that one
    place was replaced; [all] makes no difference. *)
Theorem edit_unique
    (path old new content : pystr) (w w1 : World) :
  read_text path w = (Val content, w1) ->
  str_count old content = 1 ->
  exists before after,
    content = before ++ old ++ after
    /\ (forall n, n < length before ->
        starts_with old (skipn n content) = false)
    /\ forall all,
         edit path old new all w
         = write_and_report path (before ++ new ++ after)
                            (py "成功替换 1 处内容") w1.
Proof.
  intros R C.
  assert (N : str_contains old content = true)
    by (now rewrite str_contains_count, C).
  destruct (str_replace_first_split old new content N)
    as (before & after & S1 & S2 & S3).
  exists before, after. split; [exact S1|]. split; [exact S3|].
  intros all. unfold edit, write_and_report, try_except, bind.
  rewrite R. destruct all.
  - rewrite str_replace_first_once by lia. now rewrite C, S2.
  - rewrite C. cbn [Nat.ltb Nat.leb]. now rewrite N, S2.
Qed.

Lemma edit_several (path old new content : pystr) (w w1 : World) :
  read_text path w = (Val content, w1) ->
  (1 <? str_count old content)%nat = true ->
  edit path old new false w = (Val MULTIPLE_MATCHES, w1).
Proof.
  intros R C. unfold edit, try_except, bind. now rewrite R, C.
Qed.

(** X3: without [all], a text that occurs more than once makes [edit]
    answer with the multiple-matches message and leave the file alone:
    the world is the one the reading left. *)
Theorem edit_refuses_several
    (path old new content : pystr) (w w1 : World) :
  read_text path w = (Val content, w1) ->
  1 < str_count old content ->
  edit path old new false w = (Val MULTIPLE_MATCHES, w1).
Proof.
  intros R C. apply Nat.ltb_lt in C.
  now apply edit_several with (content := content).
Qed.

(** X4: the empty text as [old].  In a file that is not empty it counts as
    occurring more than once, so [edit] without [all] refuses; in an empty
    file it occurs once, and [edit] writes [new]. *)
Theorem edit_empty_old (path new content : pystr) (w w1 : World) :
  read_text path w = (Val content, w1) ->
  (content <> [] -> edit path [] new false w = (Val MULTIPLE_MATCHES, w1))
  /\ (content = [] ->
      forall all,
        edit path [] new all w
        = write_and_report path new (py "成功替换 1 处内容") w1).
Proof.
  intros R. split.
  - intros NE. apply edit_several with (content := content); [exact R|].
    destruct content; [congruence|reflexivity].
  - intros -> all. unfold edit, write_and_report, try_except, bind.
    rewrite R. destruct all; cbn [str_count str_replace str_replace_first
      str_contains length flat_map Nat.ltb Nat.leb];
      now rewrite ?app_nil_r.
Qed.

(** X5: with [all], the text [edit] writes has lost the length of [old]
    and gained the length of [new] once for every occurrence, and the
    answer gives the number of occurrences. *)
Theorem edit_all_length
    (path old new content : pystr) (w w1 : World) :
  read_text path w = (Val content, w1) ->
  exists new_content,
    edit path old new true w
    = write_and_report path new_content
                       (edit_report (str_count old content)) w1
    /\ length new_content + str_count old content * length old
       = length content + str_count old content * length new.
Proof.
  intros R. exists (str_replace old new content). split.
  - unfold edit, write_and_report, try_except, bind. now rewrite R.
  - apply str_replace_length.
Qed.


End EditFacts.

(** ** More on the read tool *)

(** A slice between two indices that are not negative. *)
Lemma py_slice_from {A} (l : list A) (start stop : Z) :
  (0 <= start)%Z -> (0 <= stop)%Z ->
  py_slice l start stop
  = firstn (Z.to_nat (Z.min stop (Z.of_nat (length l)) - start))
           (skipn (Z.to_nat start) l).
Proof.
  intros Hs He. unfold py_slice, slice_index.
  destruct (Z.ltb_spec start 0); [lia|].
  destruct (Z.ltb_spec stop 0); [lia|].
  destruct (Z.le_gt_cases start (Z.of_nat (length l))) as [L|L].
  - now rewrite (Z.min_l start) by lia.
  - rewrite (Z.min_r start) by lia.
    rewrite !skipn_all2 by lia. now rewrite !firstn_nil.
Qed.

Lemma py_slice_window {A} (l : list A) (start n : Z) :
  (0 <= start)%Z -> (0 <= n)%Z ->
  py_slice l start (Z.min (Z.of_nat (length l)) (start + n))
  = firstn (Z.to_nat n) (skipn (Z.to_nat start) l).
Proof.
  intros Hs Hn. rewrite py_slice_from by lia.
  destruct (Z.le_gt_cases (start + n) (Z.of_nat (length l))) as [M|M].
  - f_equal. lia.
  - rewrite !firstn_all2; [reflexivity| |]; rewrite length_skipn; lia.
Qed.

Lemma py_slice_to_end {A} (l : list A) (start : Z) :
  (0 <= start)%Z ->
  py_slice l start (Z.of_nat (length l)) = skipn (Z.to_nat start) l.
Proof.
  intros Hs. rewrite py_slice_from by lia.
  apply firstn_all2. rewrite length_skipn. lia.
Qed.

Lemma py_slice_empty {A} (l : list A) (start stop : Z) :
  (Z.of_nat (length l) <= start)%Z -> py_slice l start stop = [].
Proof.
  intros H. unfold py_slice, slice_index.
  destruct (Z.ltb_spec start 0); [lia|].
  rewrite (Z.min_r start) by lia.
  rewrite skipn_all2 by lia. apply firstn_nil.
Qed.

(** X7: with an [offset] of at least 1, [read] lists the lines from line
    [offset] on, at most [limit] of them when a limit (not negative) is
    given, and each listed line carries the number it has in the file. *)
Theorem read_window_lines (lines : list pystr) (offset : Z) :
  (1 <= offset)%Z ->
  read_result lines (Some offset) None
  = numbered offset (skipn (Z.to_nat (offset - 1)) lines)
  /\ (forall n, (0 <= n)%Z ->
      read_result lines (Some offset) (Some n)
      = numbered offset
          (firstn (Z.to_nat n) (skipn (Z.to_nat (offset - 1)) lines)))
  /\ (forall j line,
      nth_error lines (Z.to_nat (offset - 1) + j) = Some line ->
      nth_error (read_result lines (Some offset) None) j
      = Some (format_4d (offset + Z.of_nat j) ++ py " | " ++ rstrip line)).
Proof.
  intros O.
  assert (E : read_result lines (Some offset) None
              = numbered offset (skipn (Z.to_nat (offset - 1)) lines)).
  { unfold read_result, read_window.
    rewrite Z.max_r by lia. rewrite py_slice_to_end by lia.
    f_equal. lia. }
  split; [exact E|]. split.
  - intros n Hn. unfold read_result, read_window.
    rewrite Z.max_r by lia. rewrite py_slice_window by lia.
    f_equal. lia.
  - intros j line H. rewrite E, numbered_nth, nth_error_skipn, H.
    reflexivity.
Qed.

(** X8: an [offset] of 1, of 0 or below 0 all mean the first line. *)
Theorem read_offset_floor
    (readlines : pystr -> Res (list pystr)) (path : pystr)
    (offset : Z) (limit : option Z) :
  (offset <= 1)%Z ->
  read readlines path (Some offset) limit
  = read readlines path (Some 1%Z) limit.
Proof.
  intros O. unfold read, read_result, read_window.
  now rewrite (Z.max_l 0 (offset - 1)), (Z.max_l 0 (1 - 1)) by lia.
Qed.

(** X9: an [offset] beyond the last line makes [read] answer that the
    file is empty, whatever the file holds and whatever the limit. *)
Theorem read_past_end
    (readlines : pystr -> Res (list pystr)) (path : pystr)
    (lines : list pystr) (offset : Z) (limit : option Z) :
  readlines path = Val lines ->
  (Z.of_nat (length lines) < offset)%Z ->
  read readlines path (Some offset) limit = py "(空文件)".
Proof.
  intros R O. unfold read, read_result, read_window. rewrite R.
  rewrite py_slice_empty by lia. reflexivity.
Qed.

(** X10: a limit of 0, or a negative limit that does not reach back
    before the first line, lists nothing: [read] answers that the file is
    empty. *)
Theorem read_limit_not_positive
    (readlines : pystr -> Res (list pystr)) (path : pystr)
    (lines : list pystr) (offset n : Z) :
  readlines path = Val lines ->
  (n <= 0)%Z -> (0 <= Z.max 0 (offset - 1) + n)%Z ->
  read readlines path (Some offset) (Some n) = py "(空文件)".
Proof.
  intros R N S. unfold read, read_result, read_window. rewrite R.
  assert (E : py_slice lines (Z.max 0 (offset - 1))
                (Z.min (Z.of_nat (length lines)) (Z.max 0 (offset - 1) + n))
              = []).
  { rewrite py_slice_from by lia.
    replace (Z.to_nat _) with 0%nat by lia. reflexivity. }
  now rewrite E.
Qed.

(** X11: a negative limit that reaches back before the first line counts
    from the end of the file instead: from line [offset] on, [read] lists
    as many lines as the file has, less the size of the limit. *)
Theorem read_limit_from_the_end (lines : list pystr) (offset n : Z) :
  (1 <= offset)%Z -> (offset - 1 + n < 0)%Z ->
  (0 <= Z.of_nat (length lines) + n)%Z ->
  read_result lines (Some offset) (Some n)
  = numbered offset
      (firstn (Z.to_nat (Z.of_nat (length lines) + n))
              (skipn (Z.to_nat (offset - 1)) lines)).
Proof.
  intros O S L. unfold read_result, read_window.
  rewrite Z.max_r by lia.
  replace (offset - 1 + 1)%Z with offset by lia. f_equal.
  unfold py_slice, slice_index.
  destruct (Z.ltb_spec (offset - 1) 0); [lia|].
  destruct (Z.ltb_spec (Z.min (Z.of_nat (length lines)) (offset - 1 + n)) 0);
    [|lia].
  destruct (Z.le_gt_cases (offset - 1) (Z.of_nat (length lines))) as [M|M].
  - rewrite (Z.min_l (offset - 1)) by lia. f_equal. lia.
  - rewrite !skipn_all2 by lia. now rewrite !firstn_nil.
Qed.

(** ** More on a user turn *)

Section TurnFacts.

Variable World : Type.
Variable create_completion : Request -> M World Response.
Variable call_handler : ToolFn -> pyval -> M World pystr.
Variable json_loads : pystr -> Decoding.
Variable json_dumps : pyval -> pystr.
Variable Fore : Palette.

#[local] Abbreviation chat_run :=
  (chat_run create_completion call_handler json_loads json_dumps Fore).
#[local] Abbreviation chat :=
  (chat create_completion call_handler json_loads json_dumps Fore).
#[local] Abbreviation State := (State World).

(** [chat] is [chat_run] with the exit turned into the returned value. *)
Lemma chat_of_run (user_input : pystr) (s : State) :
  chat user_input s
  = (match fst (chat_run user_input s) with
     | Val e => Val (exit_value e)
     | Exn e => Exn e
     end,
     snd (chat_run user_input s)).
Proof.
  unfold chat, bind. destruct (chat_run user_input s) as [[e|e] s'];
    reflexivity.
Qed.

Lemma chat_spec (user_input : pystr) (s : State) :
  exists r rounds last w' evs,
    chat_run user_input s
    = (r, advance s (UserMsg user_input :: concat rounds ++ last) w' evs)
    /\ chat user_input s
       = (match r with Val e => Val (exit_value e) | Exn e => Exn e end,
          advance s (UserMsg user_input :: concat rounds ++ last) w' evs)
    /\ Forall tool_round rounds
    /\ turn_end r last
    /\ loop_count max_iterations r (length rounds) (model_calls evs).
Proof.
  destruct (chat_run_spec create_completion call_handler json_loads
              json_dumps Fore user_input s)
    as (r & rounds & last & w' & evs & E & F & T & _ & C).
  exists r, rounds, last, w', evs. split; [exact E|].
  split; [|now repeat split].
  rewrite chat_of_run, E. reflexivity.
Qed.

(** X12: whatever the model and the tools do, a user turn sends at least
    one and at most 10 requests to the model. *)
Theorem chat_request_bounds (user_input : pystr) (s : State) :
  exists evs,
    trace (snd (chat user_input s)) = trace s ++ evs
    /\ 1 <= model_calls evs <= 10.
Proof.
  destruct (chat_spec user_input s)
    as (r & rounds & last & w' & evs & _ & E & _ & _ & C).
  exists evs. rewrite E. cbn [snd advance trace]. split; [reflexivity|].
  unfold loop_count, max_iterations in C.
  destruct r as [[c|]|e]; lia.
Qed.

(** X13: however a user turn ends, by an answer, at the limit or by an
    exception, the history afterwards is the history before it followed
    by the user turn and what the turn added; the model name, the tool
    schemas and the system prompt are untouched. *)
Theorem chat_keeps_earlier_turns (user_input : pystr) (s : State) :
  exists added,
    messages (agent (snd (chat user_input s)))
    = messages (agent s) ++ UserMsg user_input :: added
    /\ model (agent (snd (chat user_input s))) = model (agent s)
    /\ tools (agent (snd (chat user_input s))) = tools (agent s)
    /\ system_prompt (agent (snd (chat user_input s)))
       = system_prompt (agent s).
Proof.
  destruct (chat_spec user_input s)
    as (r & rounds & last & w' & evs & _ & E & _).
  rewrite E. cbn [snd advance agent set_messages messages model tools
                  system_prompt].
  eexists. repeat split.
Qed.

(** X14: a turn that ends by an exception has already recorded the user
    turn and every round completed before the failure.  After them the
    history holds nothing more, or the round the exception cut short: the
    assistant turn with its requests and the answers to the requests
    handled so far, fewer than the requests.  No answer of the model
    follows. *)
Theorem chat_failure_keeps_user_turn
    (user_input e : pystr) (s s' : State) :
  chat user_input s = (Exn e, s') ->
  exists rounds last,
    length rounds < 10
    /\ Forall tool_round rounds
    /\ (last = [] \/ cut_round last)
    /\ messages (agent s')
       = messages (agent s) ++ UserMsg user_input :: concat rounds ++ last.
Proof.
  intros H.
  destruct (chat_spec user_input s)
    as (r & rounds & last & w' & evs & _ & E & F & T & C).
  rewrite H in E. destruct r as [c|e']; [discriminate|].
  injection E as -> ->. exists rounds, last.
  unfold loop_count, max_iterations in C. cbn [turn_end] in T.
  cbn [advance agent set_messages messages]. repeat split; [lia|exact F|exact T].
Qed.

Lemma tool_round_last (round : list Msg) :
  tool_round round ->
  exists earlier id text, round = earlier ++ [ToolMsg id text].
Proof.
  intros (c & tc & calls & results & -> & A).
  assert (NE : results <> []).
  { apply answers_length in A. destruct results; [discriminate|congruence]. }
  destruct (exists_last NE) as (front & m & ->).
  unfold answers in A. apply Forall2_app_inv_r in A.
  destruct A as (l1 & l2 & _ & A & _).
  inversion A as [|tc' m' ? ? [text ->] _]; subst.
  exists (AssistantCalls c (tc :: calls) :: front), (tc_id tc'), text.
  reflexivity.
Qed.

(** X15: what [chat] returns and what the history ends with.  Either the
    returned value is the content of the assistant turn that ends the
    history, or it is the iteration-limit message, which is not recorded:
    the history then ends with a tool-result turn. *)
Theorem chat_return_and_last_turn
    (user_input : pystr) (v : option pystr) (s s' : State) :
  chat user_input s = (Val v, s') ->
  (exists earlier, messages (agent s') = earlier ++ [AssistantMsg v])
  \/ (v = Some ITERATION_LIMIT_MESSAGE
      /\ exists earlier id text,
           messages (agent s') = earlier ++ [ToolMsg id text]).
Proof.
  intros H.
  destruct (chat_spec user_input s)
    as (r & rounds & last & w' & evs & _ & E & F & T & C).
  rewrite H in E. destruct r as [[c|]|e']; try discriminate;
    injection E as -> ->; cbn [turn_end] in T; subst last;
    cbn [advance agent set_messages messages exit_value].
  - left. exists (messages (agent s) ++ UserMsg user_input :: concat rounds).
    now rewrite <- app_assoc.
  - right. split; [reflexivity|].
    unfold loop_count, max_iterations in C. destruct C as [L _].
    assert (NE : rounds <> []) by (destruct rounds; [discriminate|congruence]).
    destruct (exists_last NE) as (front & round & ->).
    apply Forall_app in F. destruct F as [_ F].
    inversion F as [|? ? R _]; subst.
    destruct (tool_round_last R) as (earlier & id & text & ->).
    exists (messages (agent s) ++ UserMsg user_input :: concat front ++ earlier),
      id, text.
    rewrite concat_app. cbn [concat]. rewrite !app_nil_r.
    rewrite <- !app_assoc. cbn [app]. now rewrite <- !app_assoc.
Qed.

(** A pass in which the model asks for no tool. *)
Lemma chat_iteration_final (iteration : nat) (s : State)
    (m : Message) (rest : list Message) (w1 : World) :
  create_completion (request_of (agent s)) (world s)
    = (Val {| choices := m :: rest |}, w1) ->
  tool_calls m = None \/ tool_calls m = Some [] ->
  chat_iteration create_completion call_handler json_loads json_dumps Fore
                 iteration s
  = (Val (Some (FinalResponse (content m))),
     advance s [AssistantMsg (content m)] w1
             [EvModelCall (request_of (agent s))]).
Proof.
  intros C T.
  unfold chat_iteration, call_model, bind, get_agent, print, emit, in_world,
    first_choice, append_message.
  cbn [advance world agent]. rewrite C. cbn [choices]. unfold ret at 1.
  destruct T as [T|T]; rewrite T; cbv beta iota; cbn [advance world app];
    unfold ret; now rewrite !advance_advance.
Qed.

(** X16: when the first answer of the model carries no tool call, the
    turn is one request long: [chat] returns the content of the answer and
    the history gains the user turn and the assistant turn, nothing
    else. *)
Theorem chat_direct_answer
    (user_input : pystr) (s : State)
    (m : Message) (rest : list Message) (w1 : World) :
  let asked := advance s [UserMsg user_input] (world s) [] in
  create_completion (request_of (agent asked)) (world s)
    = (Val {| choices := m :: rest |}, w1) ->
  tool_calls m = None \/ tool_calls m = Some [] ->
  chat user_input s
  = (Val (content m),
     advance s [UserMsg user_input; AssistantMsg (content m)] w1
             [EvModelCall (request_of (agent asked))]).
Proof.
  intros asked C T.
  unfold chat, chat_run, bind, append_message. fold asked.
  unfold max_iterations. cbn [chat_loop]. unfold bind.
  rewrite (chat_iteration_final 0 asked (m := m) (rest := rest) (w1 := w1))
    by assumption.
  unfold ret, asked. cbn [exit_value]. now rewrite advance_advance.
Qed.

End TurnFacts.

(** ** Decoding and the bash tool *)

Ltac nlia := zify; Z.to_euclidean_division_equations; lia.

Ltac settle_tests :=
  repeat match goal with
  | |- context [(?a <? ?b)%N] =>
    destruct (N.ltb_spec a b); try (exfalso; nlia)
  | |- context [(?a <=? ?b)%N] =>
    destruct (N.leb_spec a b); try (exfalso; nlia)
  | |- context [(?a =? ?b)%N] =>
    destruct (N.eqb_spec a b); try (exfalso; nlia)
  end.

(** Decoding undoes the encoding of one character. *)
Lemma utf8_strict_char (c : N) (rest : bytes) :
  is_scalar c = true ->
  utf8_strict (utf8_encode_char c ++ rest)
  = option_map (cons c) (utf8_strict rest).
Proof.
  unfold is_scalar, utf8_encode_char. intros S.
  destruct (N.ltb_spec c 128);
    [cbn [app utf8_strict]; settle_tests; reflexivity|].
  destruct (N.ltb_spec c 2048).
  { cbn [app utf8_strict]. unfold is_cont. settle_tests. cbn [andb orb negb].
    do 2 f_equal. nlia. }
  destruct (N.ltb_spec c 65536).
  { cbn [app utf8_strict]. unfold is_cont.
    destruct (N.ltb_spec c 55296); destruct (N.leb_spec 57344 c);
      try discriminate; settle_tests; cbn [andb orb negb];
      do 2 f_equal; nlia. }
  cbn [app utf8_strict]. unfold is_cont.
  destruct (N.ltb_spec c 55296); [exfalso; nlia|].
  destruct (N.leb_spec 57344 c); [|discriminate].
  destruct (N.ltb_spec c 1114112); [|discriminate].
  settle_tests; cbn [andb orb negb]; do 2 f_equal; nlia.
Qed.

Lemma utf8_strict_encode (s : pystr) :
  forallb is_scalar s = true -> utf8_strict (utf8_encode s) = Some s.
Proof.
  induction s as [|c s IH]; cbn [forallb utf8_encode flat_map];
    [reflexivity|].
  intros H. apply andb_prop in H. destruct H as [C H].
  fold (utf8_encode s). now rewrite utf8_strict_char, IH.
Qed.

Section DecodeFacts.

Variable decode_gbk : bytes -> option pystr.
Variable decode_replace : bytes -> pystr.
Variable World : Type.
Variable subprocess_run : pystr -> World -> RunOutcome * World.

#[local] Abbreviation _decode_bytes :=
  (_decode_bytes decode_gbk decode_replace).
#[local] Abbreviation bash := (bash decode_gbk decode_replace subprocess_run).

Lemma decode_utf8_valid (data : bytes) (s : pystr) :
  utf8_strict data = Some s -> _decode_bytes data = s.
Proof.
  intros H. unfold _decode_bytes. rewrite H.
  destruct data; [|reflexivity]. cbn in H. congruence.
Qed.

(** X17: bytes that are the UTF-8 encoding of a text are decoded to that
    text, whatever they would mean as GBK. *)
Theorem decode_bytes_utf8_text (s : pystr) :
  forallb is_scalar s = true -> _decode_bytes (utf8_encode s) = s.
Proof.
  intros H. now apply decode_utf8_valid, utf8_strict_encode.
Qed.

Lemma py_text_not_empty (prefix : string) (rest : pystr) :
  0 < length (py prefix) -> py prefix ++ rest <> [].
Proof.
  intros L E. apply (f_equal (@length _)) in E.
  rewrite length_app in E. cbn [length] in E. lia.
Qed.

(** X18: [bash] never returns the empty text, whatever the command
    does: a process without output and with exit code 0, a timeout and
    any other failure all have their own answer. *)
Theorem bash_never_empty (cmd : pystr) (w : World) :
  exists text w', bash cmd w = (Val text, w') /\ text <> [].
Proof.
  unfold bash. destruct (subprocess_run cmd w) as [[result| |e] w'].
  - eexists _, w'. split; [reflexivity|].
    match goal with |- match ?o with _ => _ end <> _ => destruct o end;
      [|discriminate].
    rewrite <- (app_nil_r (py _)). apply py_text_not_empty. vm_compute. lia.
  - eexists _, w'. split; [reflexivity|].
    rewrite <- (app_nil_r (py _)). apply py_text_not_empty. vm_compute. lia.
  - eexists _, w'. split; [reflexivity|].
    apply py_text_not_empty. vm_compute. lia.
Qed.

(** X19: an exit code other than 0 is always reported, on the last line
    of what [bash] returns. *)
Theorem bash_reports_exit_code
    (cmd : pystr) (w w' : World) (result : CompletedProcess) :
  subprocess_run cmd w = (Completed result, w') ->
  cp_returncode result <> 0%Z ->
  exists shown,
    bash cmd w
    = (Val (shown ++ NL ++ py "[退出码]: "
            ++ str_of_int (cp_returncode result)), w').
Proof.
  intros R C. unfold bash. rewrite R.
  apply Z.eqb_neq in C. rewrite C.
  match goal with
  | |- context [match ?o ++ ?t with _ => _ end] =>
    exists o; destruct (o ++ t) eqn:E
  end.
  - apply app_eq_nil in E. destruct E as [_ E]. discriminate.
  - reflexivity.
Qed.

(** X20: for a process whose two outputs are UTF-8, [bash] returns the
    text of the standard output, then the error output under its
    heading when there is any, then the exit code under its heading when
    it is not 0; and the no-output message when all that is empty. *)
Theorem bash_utf8_output
    (cmd out err : pystr) (w w' : World) (result : CompletedProcess) :
  subprocess_run cmd w = (Completed result, w') ->
  cp_stdout result = utf8_encode out -> forallb is_scalar out = true ->
  cp_stderr result = utf8_encode err -> forallb is_scalar err = true ->
  bash cmd w
  = (Val (or_no_output (out ++ bash_tail err (cp_returncode result))), w').
Proof.
  intros R O SO E SE. unfold bash. rewrite R, O, E.
  assert (Do : _decode_bytes (utf8_encode out) = out)
    by now apply decode_utf8_valid, utf8_strict_encode.
  assert (De : _decode_bytes (utf8_encode err) = err)
    by now apply decode_utf8_valid, utf8_strict_encode.
  rewrite Do, De.
  unfold or_no_output.
  match goal with
  | |- (Val match ?a with _ => _ end, _) = (Val match ?b with _ => _ end, _) =>
    replace b with a; [reflexivity|]
  end.
  unfold bash_tail.
  destruct err; destruct (cp_returncode result =? 0)%Z;
    now rewrite ?app_nil_r, <- ?app_assoc.
Qed.

End DecodeFacts.

(** ** The glob and grep tools *)

Section SearchFacts.

Variable walk : pystr -> Res (list (pystr * list pystr)).
Variable path_join : pystr -> pystr -> pystr.
Variable fnmatch : pystr -> pystr -> bool.
Variable Time : Type.
Variable getmtime : pystr -> Res Time.
Variable time_ltb : Time -> Time -> bool.
Variable show_time : Time -> pystr.
Variable open_lines : pystr -> Res (list pystr).
Variable re_search : pystr -> pystr -> Res bool.

#[local] Abbreviation glob_file := (glob_file path_join fnmatch getmtime).
#[local] Abbreviation glob_dir := (glob_dir path_join fnmatch getmtime).
#[local] Abbreviation insert_by_mtime := (insert_by_mtime time_ltb).
#[local] Abbreviation sort_newest_first := (sort_newest_first time_ltb).
#[local] Abbreviation glob :=
  (glob walk path_join fnmatch getmtime time_ltb show_time).
#[local] Abbreviation matching_files := (matching_files path_join fnmatch).
#[local] Abbreviation grep_scan := (grep_scan re_search).
#[local] Abbreviation grep_file := (grep_file path_join open_lines re_search).
#[local] Abbreviation grep_dir := (grep_dir path_join open_lines re_search).
#[local] Abbreviation grep := (grep walk path_join open_lines re_search).

(** *** The sort *)

Lemma insert_by_mtime_perm (x : pystr * Time) (l : list (pystr * Time)) :
  Permutation (insert_by_mtime x l) (x :: l).
Proof.
  induction l as [|y r IH]; cbn; [reflexivity|].
  destruct (time_ltb (snd x) (snd y)); [|reflexivity].
  rewrite IH. apply perm_swap.
Qed.

Lemma sort_newest_first_perm (l : list (pystr * Time)) :
  Permutation (sort_newest_first l) l.
Proof.
  induction l as [|x l IH]; cbn; [reflexivity|].
  fold (sort_newest_first l).
  rewrite insert_by_mtime_perm. now constructor.
Qed.

Lemma sort_newest_first_nil (l : list (pystr * Time)) :
  sort_newest_first l = [] -> l = [].
Proof.
  intros H. pose proof (sort_newest_first_perm l) as P. rewrite H in P.
  now apply Permutation_nil.
Qed.

Section Order.

(** The times are ordered: [<] is asymmetric, and its negation, [>=], is
    transitive. *)
Hypothesis time_asym :
  forall a b, time_ltb a b = true -> time_ltb b a = false.
Hypothesis time_trans :
  forall a b c,
    time_ltb a b = false -> time_ltb b c = false -> time_ltb a c = false.

Lemma insert_by_mtime_sorted (x : pystr * Time) (l : list (pystr * Time)) :
  newest_first time_ltb l -> newest_first time_ltb (insert_by_mtime x l).
Proof.
  unfold newest_first.
  induction 1 as [|y r S IH F]; cbn.
  - repeat constructor.
  - destruct (time_ltb (snd x) (snd y)) eqn:E.
    + constructor; [exact IH|].
      rewrite insert_by_mtime_perm. constructor; [|exact F].
      now apply time_asym.
    + constructor; [now constructor|].
      constructor; [exact E|].
      rewrite Forall_forall in *. intros z Hz.
      apply time_trans with (b := snd y); auto.
Qed.

Lemma sort_newest_first_sorted (l : list (pystr * Time)) :
  newest_first time_ltb (sort_newest_first l).
Proof.
  induction l as [|x l IH]; cbn; [constructor|].
  now apply insert_by_mtime_sorted.
Qed.

End Order.

(** *** glob *)

Lemma glob_file_raised (pat root e : pystr) (files : list pystr) :
  fold_left (glob_file pat root) files (Exn e) = Exn e.
Proof. induction files as [|f files IH]; cbn; [reflexivity|exact IH]. Qed.

Lemma glob_dir_raised (pat e : pystr) (dirs : list (pystr * list pystr)) :
  fold_left (glob_dir pat) dirs (Exn e) = Exn e.
Proof.
  induction dirs as [|[root files] dirs IH]; cbn; [reflexivity|].
  now rewrite glob_file_raised.
Qed.

Section Collected.

(** A world in which the time of every file can be read. *)
Variable mtime_of : pystr -> Time.

Lemma glob_files_collect (pat root : pystr) (files : list pystr)
    (acc : list (pystr * Time)) :
  (forall f, In f files -> fnmatch f pat = true ->
             getmtime (path_join root f) = Val (mtime_of (path_join root f))) ->
  fold_left (glob_file pat root) files (Val acc)
  = Val (acc ++ stamped mtime_of (map (path_join root)
                             (filter (fun f => fnmatch f pat) files))).
Proof.
  revert acc. induction files as [|f files IH]; intros acc H.
  - cbn. now rewrite app_nil_r.
  - cbn [fold_left filter]. unfold glob_file at 2.
    destruct (fnmatch f pat) eqn:E.
    + rewrite (H f (or_introl eq_refl) E).
      rewrite IH by (intros; apply H; [now right|assumption]).
      cbn [map stamped]. unfold stamped. now rewrite <- app_assoc.
    + apply IH. intros; apply H; [now right|assumption].
Qed.

Lemma glob_dirs_collect (pat : pystr) (dirs : list (pystr * list pystr))
    (acc : list (pystr * Time)) :
  (forall p, In p (matching_files pat dirs) -> getmtime p = Val (mtime_of p)) ->
  fold_left (glob_dir pat) dirs (Val acc)
  = Val (acc ++ stamped mtime_of (matching_files pat dirs)).
Proof.
  revert acc. induction dirs as [|[root files] dirs IH]; intros acc H.
  - cbn. now rewrite app_nil_r.
  - cbn [fold_left]. unfold glob_dir at 2.
    rewrite glob_files_collect.
    + rewrite IH.
      * unfold matching_files, stamped. cbn [flat_map fst snd].
        now rewrite !map_app, <- app_assoc.
      * intros p Hp. apply H. unfold matching_files.
        cbn [flat_map]. apply in_or_app. now right.
    + intros f Hf E. apply H. unfold matching_files.
      cbn [flat_map fst snd]. apply in_or_app. left.
      apply in_map, filter_In. now split.
Qed.

End Collected.

(** X21: when the time of every matching file can be read, [glob] lists
    exactly the files of the walk whose name matches, each with its time,
    newest first; with no such file it answers that nothing matched. *)
Theorem glob_lists_newest_first
    (mtime_of : pystr -> Time) (pat path : pystr)
    (dirs : list (pystr * list pystr)) :
  (forall a b, time_ltb a b = true -> time_ltb b a = false) ->
  (forall a b c,
     time_ltb a b = false -> time_ltb b c = false -> time_ltb a c = false) ->
  walk path = Val dirs ->
  (forall p, In p (matching_files pat dirs) -> getmtime p = Val (mtime_of p)) ->
  exists listing,
    Permutation listing (stamped mtime_of (matching_files pat dirs))
    /\ newest_first time_ltb listing
    /\ glob pat path
       = match listing with
         | [] => py "未找到匹配文件"
         | _ => join NL (map (glob_line show_time) listing)
         end.
Proof.
  intros A T W G.
  exists (sort_newest_first (stamped mtime_of (matching_files pat dirs))).
  split; [apply sort_newest_first_perm|].
  split; [now apply sort_newest_first_sorted|].
  unfold glob. rewrite W, (glob_dirs_collect mtime_of pat dirs [] G).
  cbn [app].
  destruct (stamped mtime_of (matching_files pat dirs)) as [|m ms] eqn:E;
    [reflexivity|].
  destruct (sort_newest_first (m :: ms)) eqn:S; [|reflexivity].
  apply sort_newest_first_nil in S. discriminate.
Qed.

Lemma glob_files_fail (pat root filename e : pystr) (files : list pystr)
    (acc : Res (list (pystr * Time))) :
  In filename files -> fnmatch filename pat = true ->
  getmtime (path_join root filename) = Exn e ->
  exists e', fold_left (glob_file pat root) files acc = Exn e'.
Proof.
  revert acc. induction files as [|f files IH]; intros acc I M F;
    [destruct I|].
  cbn [fold_left]. destruct I as [->|I]; [|now apply IH].
  destruct acc as [ms|e0].
  - unfold glob_file at 2. rewrite M, F. eexists. apply glob_file_raised.
  - eexists. cbn. apply glob_file_raised.
Qed.

(** X22: one matching file whose time cannot be read is enough for
    [glob] to answer with an error and list nothing, whatever else
    matches. *)
Theorem glob_mtime_failure
    (pat path root filename e : pystr) (files : list pystr)
    (dirs : list (pystr * list pystr)) :
  walk path = Val dirs ->
  In (root, files) dirs -> In filename files ->
  fnmatch filename pat = true ->
  getmtime (path_join root filename) = Exn e ->
  exists e', glob pat path = py "错误: " ++ e'.
Proof.
  intros W D I M F. unfold glob. rewrite W.
  assert (H : forall acc, exists e',
              fold_left (glob_dir pat) dirs acc = Exn e').
  { clear W. induction dirs as [|[root' files'] dirs' IH]; [destruct D|].
    intros acc. cbn [fold_left]. destruct D as [[= -> ->]|D].
    - unfold glob_dir at 2.
      destruct (glob_files_fail files acc I M F) as [e' ->].
      eexists. apply glob_dir_raised.
    - now apply IH. }
  destruct (H (Val [])) as [e' ->]. now exists e'.
Qed.

(** *** grep *)

Lemma grep_scan_sound (P : pystr -> Prop) (pat filepath : pystr)
    (lines : list pystr) (i : Z) (results : list pystr) :
  Forall P results ->
  (forall k line,
     nth_error lines k = Some line -> re_search pat line = Val true ->
     P (grep_line filepath (i + Z.of_nat k) line)) ->
  Forall P (grep_scan pat filepath i lines results).
Proof.
  revert i results. induction lines as [|line rest IH]; intros i results F H;
    cbn [grep_scan]; [exact F|].
  destruct (re_search pat line) as [[|]|e] eqn:E; [| |exact F].
  - apply IH.
    + apply Forall_app. split; [exact F|]. constructor; [|constructor].
      specialize (H 0 line eq_refl E). now rewrite Z.add_0_r in H.
    + intros k l Hk Hl. specialize (H (S k) l Hk Hl).
      now replace (i + 1 + Z.of_nat k)%Z with (i + Z.of_nat (S k))%Z by lia.
  - apply IH; [exact F|].
    intros k l Hk Hl. specialize (H (S k) l Hk Hl).
    now replace (i + 1 + Z.of_nat k)%Z with (i + Z.of_nat (S k))%Z by lia.
Qed.

Lemma grep_scan_nothing (pat filepath : pystr)
    (lines : list pystr) (i : Z) (results : list pystr) :
  (forall line, re_search pat line <> Val true) ->
  grep_scan pat filepath i lines results = results.
Proof.
  intros H. revert i. induction lines as [|line rest IH]; intros i;
    cbn [grep_scan]; [reflexivity|].
  destruct (re_search pat line) as [[|]|e] eqn:E; [|apply IH|reflexivity].
  now apply H in E.
Qed.

(** X23: when the pattern is one that [re.search] refuses, [grep] does
    not say so: the exception is dropped for every file, and the answer is
    that nothing matched. *)
Theorem grep_invalid_pattern
    (pat path : pystr) (dirs : list (pystr * list pystr)) :
  walk path = Val dirs ->
  (forall line, exists e, re_search pat line = Exn e) ->
  grep pat path = py "未找到匹配".
Proof.
  intros W H. unfold grep. rewrite W.
  assert (N : forall line, re_search pat line <> Val true).
  { intros line C. destruct (H line) as [e E]. congruence. }
  assert (K : forall results, fold_left (grep_dir pat) dirs results = results).
  { clear W. induction dirs as [|[root files] dirs' IH]; intros results;
      [reflexivity|].
    cbn [fold_left]. rewrite IH. unfold grep_dir.
    clear IH. revert results.
    induction files as [|f files IH]; intros results; [reflexivity|].
    cbn [fold_left]. rewrite IH. unfold grep_file.
    destruct (open_lines (path_join root f)); [|reflexivity].
    now apply grep_scan_nothing. }
  now rewrite K.
Qed.

(** X24: when the walk succeeds, [grep] answers that nothing matched or
    lists the first 50 of its results, and every result names a file of
    the walk that could be opened, the number of a line of that file that
    matches, counted from 1, and the text of that line; files that cannot
    be opened and lines on which the matching raises give no result and no
    error. *)
Theorem grep_sound (pat path : pystr) (dirs : list (pystr * list pystr)) :
  walk path = Val dirs ->
  exists results,
    Forall (grep_hit path_join open_lines re_search pat dirs) results
    /\ grep pat path
       = match results with
         | [] => py "未找到匹配"
         | _ => join NL (firstn 50 results)
         end.
Proof.
  intros W. exists (fold_left (grep_dir pat) dirs []).
  split;
    [|unfold grep; rewrite W;
      now destruct (fold_left (grep_dir pat) dirs [])].
  clear W.
  assert (K : forall ds results,
    (forall d, In d ds -> In d dirs) ->
    Forall (grep_hit path_join open_lines re_search pat dirs) results ->
    Forall (grep_hit path_join open_lines re_search pat dirs)
           (fold_left (grep_dir pat) ds results)).
  { induction ds as [|[root files] ds IH]; intros results S F; [exact F|].
    cbn [fold_left]. apply IH; [intros d Hd; apply S; now right|].
    unfold grep_dir.
    assert (D : In (root, files) dirs) by (apply S; now left).
    assert (L : forall fs results',
      (forall f, In f fs -> In f files) ->
      Forall (grep_hit path_join open_lines re_search pat dirs) results' ->
      Forall (grep_hit path_join open_lines re_search pat dirs)
             (fold_left (grep_file pat root) fs results')).
    { induction fs as [|f fs IHf]; intros results' Sf F'; [exact F'|].
      cbn [fold_left]. apply IHf; [intros g Hg; apply Sf; now right|].
      unfold grep_file.
      destruct (open_lines (path_join root f)) as [lines|e] eqn:O;
        [|exact F'].
      apply grep_scan_sound; [exact F'|].
      intros k line Hk Hl.
      exists root, files, f, lines, k, line.
      repeat split; auto; [apply Sf; now left|f_equal; lia]. }
    apply L; auto. }
  apply K; auto.
Qed.

End SearchFacts.

(** ** The interactive loop *)

Section MainFacts.

Variable World : Type.
Variable create_completion : Request -> M World Response.
Variable call_handler : ToolFn -> pyval -> M World pystr.
Variable json_loads : pystr -> Decoding.
Variable json_dumps : pyval -> pystr.
Variable Fore : Palette.
Variable CYAN GREEN : pystr.
Variable input : pystr -> World -> InputOutcome * World.
Variable lower : pystr -> pystr.
Variable show_params : list (pystr * pystr) -> pystr.

#[local] Abbreviation State := (State World).
#[local] Abbreviation PROMPT := (PROMPT Fore CYAN).
#[local] Abbreviation main_command :=
  (main_command create_completion call_handler json_loads json_dumps Fore
                GREEN lower show_params).
#[local] Abbreviation main_body :=
  (main_body create_completion call_handler json_loads json_dumps Fore
             CYAN GREEN input lower show_params).
#[local] Abbreviation main_iteration :=
  (main_iteration create_completion call_handler json_loads json_dumps Fore
                  CYAN GREEN input lower show_params).
#[local] Abbreviation main_loop :=
  (main_loop create_completion call_handler json_loads json_dumps Fore
             CYAN GREEN input lower show_params).
#[local] Abbreviation is_quit := (is_quit lower).
#[local] Abbreviation is_clear := (is_clear lower).
#[local] Abbreviation is_command := (is_command lower).
#[local] Abbreviation quiet := (@quiet World).

Lemma quiet_print (line : pystr) : quiet (print line).
Proof. intros s. exists [line]. reflexivity. Qed.

Lemma quiet_then (m k : M State unit) :
  quiet m -> quiet k -> quiet (m ;; k).
Proof.
  intros Hm Hk s. destruct (Hm s) as [l1 E1].
  destruct (Hk (advance s [] (world s) (map EvPrint l1))) as [l2 E2].
  exists (l1 ++ l2). unfold bind. rewrite E1, E2.
  cbn [advance world]. now rewrite advance_advance, map_app.
Qed.

Lemma quiet_for_each {A} (xs : list A) (body : A -> M State unit) :
  (forall x, quiet (body x)) -> quiet (for_each xs body).
Proof.
  intros H. induction xs as [|x xs IH]; cbn [for_each].
  - intros s. exists []. unfold ret. cbn [map]. now rewrite advance_nothing.
  - apply quiet_then; [apply H|exact IH].
Qed.

Lemma quiet_show_tools : quiet (show_tools show_params).
Proof.
  unfold show_tools. apply quiet_then; [apply quiet_print|].
  apply quiet_for_each. intros [name [[desc params] f]]. unfold show_tool.
  apply quiet_then; apply quiet_print.
Qed.

Lemma set_messages_same (a : Agent) : set_messages a (messages a) = a.
Proof. now destruct a. Qed.

(** The pass on a text the loop handles itself: lines are printed, the
    history is kept or cleared, and that is all. *)
Lemma main_command_local (text : pystr) (s : State) :
  is_command text = true ->
  exists lines,
    main_command text s
    = (Val (if is_quit text then Leave else GoOn),
       {| agent := set_messages (agent s)
                     (if is_clear text then [] else messages (agent s));
          world := world s;
          trace := trace s ++ map EvPrint lines |}).
Proof.
  unfold is_command, is_clear, is_quit, main_command.
  destruct text as [|c r].
  { intros _. exists []. cbn [map]. unfold ret.
    rewrite set_messages_same, app_nil_r. now destruct s. }
  set (text := c :: r). rewrite existsb_app. cbn [existsb].
  destruct (existsb (pystr_eqb (lower text)) QUIT_WORDS) eqn:Q.
  { intros _. exists [GOODBYE]. unfold bind, print, emit, ret, advance.
    cbn [agent world trace messages set_messages map andb negb].
    rewrite app_nil_r. reflexivity. }
  destruct (pystr_eqb (lower text) (py "/clear")) eqn:C.
  { intros _. exists [py "对话历史已清空"].
    unfold bind, clear_history, print, emit, ret, advance.
    cbn [agent world trace messages set_messages map model tools
         system_prompt andb negb app].
    reflexivity. }
  destruct (pystr_eqb (lower text) (py "/tools")) eqn:T; [|discriminate].
  intros _. destruct (quiet_show_tools s) as [lines E]. exists lines.
  unfold bind. rewrite E. unfold ret, advance. cbn [andb negb].
  now rewrite app_nil_r.
Qed.

Lemma main_body_input (s : State) (o : InputOutcome) (w1 : World) :
  input PROMPT (world s) = (o, w1) ->
  main_body s
  = match o with
    | Typed line => main_command (strip line) (advance s [] w1 [EvPrint []])
    | InputRaised e => (Exn e, advance s [] w1 [EvPrint []])
    | Interrupted =>
      (Val Leave,
       advance s [] w1 [EvPrint []; EvPrint (NL ++ GOODBYE)])
    end.
Proof.
  intros I. unfold main_body, bind, print, emit, read_input.
  cbn [advance world]. rewrite I. rewrite advance_advance. cbn [app].
  destruct o as [line|e|]; [reflexivity|reflexivity|].
  unfold ret. cbn [advance world]. now rewrite advance_advance.
Qed.

(** X26: once the input has ended, so that [input] raises [EOFError] at
    every call, the loop is never left: each pass prints an empty line and
    the error, nothing is sent to the model and the agent is as it was. *)
Theorem main_loop_input_ended
    (ended : World -> Prop) (e : pystr) (fuel : nat) (s : State) :
  (forall prompt w, ended w ->
     exists w', input prompt w = (InputRaised e, w') /\ ended w') ->
  ended (world s) ->
  exists s',
    main_loop fuel s = (Val false, s')
    /\ ended (world s')
    /\ agent s' = agent s
    /\ trace s'
       = trace s
         ++ concat (repeat [EvPrint []; EvPrint (error_line e)] fuel).
Proof.
  intros H. revert s. induction fuel as [|fuel IH]; intros s W.
  - exists s. cbn [main_loop repeat concat]. rewrite app_nil_r.
    repeat split. exact W.
  - destruct (H PROMPT (world s) W) as (w1 & I & W1).
    cbn [main_loop]. unfold bind, main_iteration, try_except.
    rewrite (main_body_input s I). unfold bind, print, emit, ret.
    cbn [advance world]. rewrite advance_advance. cbn [app].
    destruct (IH (advance s [] w1 [EvPrint []; EvPrint (error_line e)]) W1)
      as (s' & L & W' & A & T).
    exists s'. split; [exact L|]. split; [exact W'|]. split.
    + rewrite A. unfold advance. cbn [agent]. rewrite app_nil_r.
      apply set_messages_same.
    + rewrite T. cbn [advance trace repeat concat].
      now rewrite <- app_assoc.
Qed.

(** X27: a pass on an empty line or on one of the commands stays with the
    console: the pass only prints, nothing is sent to the model and no
    tool runs; the history is emptied by [/clear] and untouched by the
    rest. *)
Theorem main_commands_stay_local (s : State) (line : pystr) (w1 : World) :
  input PROMPT (world s) = (Typed line, w1) ->
  is_command (strip line) = true ->
  exists lines,
    main_iteration s
    = (Val (if is_quit (strip line) then Leave else GoOn),
       {| agent := set_messages (agent s)
                     (if is_clear (strip line) then []
                      else messages (agent s));
          world := w1;
          trace := trace s ++ map EvPrint ([] :: lines) |}).
Proof.
  intros I K. unfold main_iteration, try_except.
  rewrite (main_body_input s I).
  destruct (main_command_local (strip line) (advance s [] w1 [EvPrint []]) K)
    as [lines ->].
  exists lines. unfold advance.
  cbn [agent world trace messages set_messages map model tools
       system_prompt].
  rewrite !app_nil_r, <- app_assoc. reflexivity.
Qed.

End MainFacts.

(** * Closed instances *)

(** ** The scenarios of the specification *)

(** A: the model answers without tool calls; one request, the answer is
    returned and recorded. *)
Example scenario_direct_answer :
  let s0 := Demo.start
              [{| choices := [{| content := Some (py "4");
                                 tool_calls := None |}] |}] in
  let (r, s) := Demo.run_chat (py "what is 2+2") s0 in
  r = Val (Some (py "4"))
  /\ messages (agent s)
     = [UserMsg (py "what is 2+2"); AssistantMsg (Some (py "4"))]
  /\ trace s = [EvModelCall (request_of (agent (snd
                  (append_message (UserMsg (py "what is 2+2")) s0))))].
Proof. vm_compute. repeat split. Qed.

(** B: the model asks to read a file, then sums it up; two requests and
    one tool-result turn, with the numbered lines, in between. *)
Example scenario_read_file :
  let call := {| tc_id := py "call_7"; tc_name := py "read";
                 tc_arguments := JsonLite.text "{'path': 'notes.txt'}" |} in
  let s0 := Demo.start
              [{| choices := [{| content := None;
                                 tool_calls := Some [call] |}] |};
               {| choices := [{| content := Some (py "three words");
                                 tool_calls := None |}] |}] in
  let (r, s) := Demo.run_chat (py "read notes.txt") s0 in
  r = Val (Some (py "three words"))
  /\ messages (agent s)
     = [UserMsg (py "read notes.txt");
        AssistantCalls None [call];
        ToolMsg (py "call_7")
          (join NL [py "   1 | alpha"; py "   2 | beta"; py "   3 | gamma"]);
        AssistantMsg (Some (py "three words"))]
  /\ model_calls (trace s) = 2
  /\ In (EvPrint (JsonLite.text "  🔧 read({'path': 'notes.txt'})")) (trace s).
Proof. vm_compute. repeat split. right. right. now left. Qed.

(** C: the model asks for a tool that does not exist; the tool-result
    turn says so and the loop goes on to a second request. *)
Example scenario_unknown_tool :
  let s0 := Demo.start
              [{| choices := [{| content := Some [];
                                 tool_calls := Some [Demo.DELETE_UNIVERSE] |}] |};
               {| choices := [{| content := Some (py "I cannot do that");
                                 tool_calls := None |}] |}] in
  let (r, s) := Demo.run_chat (py "tidy up") s0 in
  r = Val (Some (py "I cannot do that"))
  /\ messages (agent s)
     = [UserMsg (py "tidy up");
        AssistantCalls (Some []) [Demo.DELETE_UNIVERSE];
        ToolMsg (py "call_1") (py "错误: 未知工具 delete_universe");
        AssistantMsg (Some (py "I cannot do that"))]
  /\ model_calls (trace s) = 2.
Proof. vm_compute. repeat split. Qed.

(** A failure of the endpoint leaves [chat] as an exception, with the user
    turn kept. *)
Example scenario_endpoint_fails :
  let (r, s) := Demo.run_chat (py "hello") (Demo.start []) in
  r = Exn (py "Connection error.")
  /\ messages (agent s) = [UserMsg (py "hello")].
Proof. vm_compute. repeat split. Qed.

(** ** Instances of the theorems *)

(** C1, as the code has it, at an endpoint that answers ten requests, each
    time asking for a tool that does not exist, and then is out of
    answers. *)
Lemma chat_stops_at_ten_calls_witness :
  let s := Demo.start (repeat (Demo.asking [Demo.DELETE_UNIVERSE]) 10) in
  let run := chat Demo.scripted_model Demo.call_handler JsonLite.json_loads
                  JsonLite.json_dumps Demo.no_colour (py "tidy up") s in
  forallb requests_tools
          (turn_responses Demo.scripted_model Demo.call_handler
                          JsonLite.json_loads JsonLite.json_dumps
                          Demo.no_colour (py "tidy up") s) = true
  /\ run = (Val (Some ITERATION_LIMIT_MESSAGE), snd run)
  /\ Some ITERATION_LIMIT_MESSAGE = Some ITERATION_LIMIT_MESSAGE
  /\ chat_run Demo.scripted_model Demo.call_handler JsonLite.json_loads
              JsonLite.json_dumps Demo.no_colour (py "tidy up") s
     = (Val IterationLimitReached, snd run)
  /\ length (turn_responses Demo.scripted_model Demo.call_handler
                            JsonLite.json_loads JsonLite.json_dumps
                            Demo.no_colour (py "tidy up") s) = 10
  /\ exists evs, trace (snd run) = trace s ++ evs /\ model_calls evs = 10.
Proof.
  intros s run.
  assert (R : forallb requests_tools
                (turn_responses Demo.scripted_model Demo.call_handler
                                JsonLite.json_loads JsonLite.json_dumps
                                Demo.no_colour (py "tidy up") s) = true)
    by (vm_compute; reflexivity).
  assert (H : run = (Val (Some ITERATION_LIMIT_MESSAGE), snd run))
    by (vm_compute; reflexivity).
  split; [exact R|]. split; [exact H|].
  exact (@chat_stops_at_ten_calls _ Demo.scripted_model Demo.call_handler
           JsonLite.json_loads JsonLite.json_dumps Demo.no_colour
           (py "tidy up") (Some ITERATION_LIMIT_MESSAGE) s (snd run) R H).
Defined.

(** C1 as the specification words it fails on a turn whose only answer
    asks for [read] with a limit of 4301 digits: the answer carries a
    tool-call request, [json.loads] raises [ValueError] on the arguments,
    line 363 lets it pass, and the turn ends there by that exception,
    after one request. *)
Lemma long_integer_ends_the_turn :
  let s := Demo.start [Demo.asking [Demo.READ_WITH_LONG_LIMIT]] in
  let run := Demo.run_chat (py "read the notes") s in
  forallb requests_tools
          (turn_responses Demo.scripted_model Demo.call_handler
                          JsonLite.json_loads JsonLite.json_dumps
                          Demo.no_colour (py "read the notes") s) = true
  /\ JsonLite.json_loads (tc_arguments Demo.READ_WITH_LONG_LIMIT)
     = DecodeRaised (JsonLite.too_many_digits 4301)
  /\ fst run = Exn (JsonLite.too_many_digits 4301)
  /\ fst run <> Val (Some ITERATION_LIMIT_MESSAGE)
  /\ model_calls (trace (snd run)) = 1.
Proof. vm_compute. repeat split. discriminate. Qed.

(** C2, as the code has it, at an answer with two requests, one of them
    for a tool that does not exist. *)
Lemma tool_results_follow_requests_witness :
  let m := {| content := None;
              tool_calls := Some [Demo.READ_NOTES; Demo.DELETE_UNIVERSE] |} in
  let s := Demo.start [{| choices := [m] |}] in
  let w1 := {| Demo.files := Demo.files (world s); Demo.script := [] |} in
  let run := chat_iteration Demo.scripted_model Demo.call_handler
                            JsonLite.json_loads JsonLite.json_dumps
                            Demo.no_colour 0 s in
  Demo.scripted_model (request_of (agent s)) (world s)
  = (Val {| choices := [m] |}, w1)
  /\ tool_calls m = Some [Demo.READ_NOTES; Demo.DELETE_UNIVERSE]
  /\ run = (Val None, snd run)
  /\ exists results,
       @None ChatExit = None
       /\ messages (agent (snd run))
          = messages (agent s)
            ++ AssistantCalls (content m)
                 [Demo.READ_NOTES; Demo.DELETE_UNIVERSE] :: results
       /\ length results = length [Demo.READ_NOTES; Demo.DELETE_UNIVERSE]
       /\ (forall k c,
           nth_error [Demo.READ_NOTES; Demo.DELETE_UNIVERSE] k = Some c ->
           exists text, nth_error results k = Some (ToolMsg (tc_id c) text))
       /\ (exists evs,
            trace (snd run)
            = trace s ++ EvModelCall (request_of (agent s)) :: evs
            /\ model_calls evs = 0)
       /\ req_messages (request_of (agent (snd run)))
          = req_messages (request_of (agent s))
            ++ AssistantCalls (content m)
                 [Demo.READ_NOTES; Demo.DELETE_UNIVERSE] :: results.
Proof.
  intros m s w1 run.
  assert (C : Demo.scripted_model (request_of (agent s)) (world s)
              = (Val {| choices := [m] |}, w1)) by reflexivity.
  assert (T : tool_calls m = Some [Demo.READ_NOTES; Demo.DELETE_UNIVERSE])
    by reflexivity.
  assert (R : run = (Val None, snd run)) by (vm_compute; reflexivity).
  split; [exact C|]. split; [exact T|]. split; [exact R|].
  exact (@tool_results_follow_requests _ Demo.scripted_model
           Demo.call_handler JsonLite.json_loads JsonLite.json_dumps
           Demo.no_colour 0 s (snd run) m [] w1 Demo.READ_NOTES
           [Demo.DELETE_UNIVERSE] None C T R).
Defined.

(** C2 as the specification words it fails on an answer with two
    requests, the second with a limit of 4301 digits: the first request is
    answered, [json.loads] raises on the arguments of the second, and the
    turn ends by that exception.  The history keeps the assistant turn
    with its two requests and the one tool-result turn, and the next
    request to the model, in the next user turn, carries them so. *)
Lemma cut_round_reaches_the_model :
  let calls := [Demo.READ_NOTES; Demo.READ_WITH_LONG_LIMIT] in
  let s := Demo.start
             [Demo.asking calls;
              {| choices := [{| content := Some (py "done");
                                tool_calls := None |}] |}] in
  let failed := Demo.run_chat (py "read the notes") s in
  let next := Demo.run_chat (py "go on") (snd failed) in
  fst failed = Exn (JsonLite.too_many_digits 4301)
  /\ exists req,
       trace (snd next) = trace (snd failed) ++ [EvModelCall req]
       /\ req_messages req
          = [SystemMsg SYSTEM_PROMPT;
             UserMsg (py "read the notes");
             AssistantCalls None calls;
             ToolMsg (py "call_a")
               (join NL [py "   1 | alpha"; py "   2 | beta";
                         py "   3 | gamma"]);
             UserMsg (py "go on")].
Proof.
  vm_compute. split; [reflexivity|]. eexists. split; reflexivity.
Qed.

(** C3 at the name of the specification's scenario. *)
Lemma execute_tool_unknown_witness :
  dict_mem (py "delete_universe") TOOLS = false
  /\ execute_tool Demo.call_handler (py "delete_universe") (PDict [])
                  (world (Demo.start []))
     = (Val (py "错误: 未知工具 delete_universe"), world (Demo.start [])).
Proof.
  split; [reflexivity|].
  exact (execute_tool_unknown Demo.call_handler (py "delete_universe")
           (PDict []) (world (Demo.start [])) eq_refl).
Defined.

(** C4 at [read] called without its [path]. *)
Lemma execute_tool_catches_witness :
  let w := world (Demo.start []) in
  let e := py "read() missing 1 required positional argument: 'path'" in
  dict_get (py "read") TOOLS
  = Some (py "Read file with line numbers (file path, not directory)",
          [(py "path", py "string"); (py "offset", py "number?");
           (py "limit", py "number?")],
          fn_read)
  /\ Demo.call_handler fn_read (PDict []) w = (Exn e, w)
  /\ execute_tool Demo.call_handler (py "read") (PDict []) w
     = (Val (py "工具执行错误: " ++ e), w).
Proof.
  intros w e.
  assert (H1 : dict_get (py "read") TOOLS
               = Some (py "Read file with line numbers (file path, not directory)",
                       [(py "path", py "string"); (py "offset", py "number?");
                        (py "limit", py "number?")],
                       fn_read)) by (vm_compute; reflexivity).
  assert (H2 : Demo.call_handler fn_read (PDict []) w = (Exn e, w))
    by (vm_compute; reflexivity).
  split; [exact H1|]. split; [exact H2|].
  exact (execute_tool_catches Demo.call_handler (py "read") (PDict []) w H1 H2).
Defined.



(** C8 at the endpoint that keeps asking for a tool that does not exist:
    the turn ends at the limit, and the ten rounds stay. *)
Lemma iteration_limit_keeps_history_witness :
  let s := Demo.start [] in
  let run := chat_run (Demo.insistent_model Demo.DELETE_UNIVERSE)
                      Demo.call_handler JsonLite.json_loads
                      JsonLite.json_dumps Demo.no_colour (py "tidy up") s in
  run = (Val IterationLimitReached, snd run)
  /\ chat (Demo.insistent_model Demo.DELETE_UNIVERSE) Demo.call_handler
          JsonLite.json_loads JsonLite.json_dumps Demo.no_colour
          (py "tidy up") s
     = (Val (Some ITERATION_LIMIT_MESSAGE), snd run)
  /\ exists rounds evs,
       length rounds = 10
       /\ Forall tool_round rounds
       /\ messages (agent (snd run))
          = messages (agent s) ++ UserMsg (py "tidy up") :: concat rounds
       /\ trace (snd run) = trace s ++ evs
       /\ model_calls evs = 10
       /\ forall req, In (EvModelCall req) evs ->
          exists later,
            SystemMsg (system_prompt (agent (snd run)))
            :: messages (agent (snd run))
            = req_messages req ++ later.
Proof.
  intros s run.
  assert (H : run = (Val IterationLimitReached, snd run))
    by (vm_compute; reflexivity).
  split; [exact H|].
  exact (iteration_limit_keeps_history
           (Demo.insistent_model Demo.DELETE_UNIVERSE) Demo.call_handler
           JsonLite.json_loads JsonLite.json_dumps Demo.no_colour
           (py "tidy up") s H).
Defined.

(** The history the turn of C8 leaves: the user turn and ten times the
    request with its answer. *)
Example limit_history_in_full :
  messages (agent (snd (chat_run (Demo.insistent_model Demo.DELETE_UNIVERSE)
                          Demo.call_handler JsonLite.json_loads
                          JsonLite.json_dumps Demo.no_colour (py "tidy up")
                          (Demo.start []))))
  = UserMsg (py "tidy up")
    :: concat (repeat [AssistantCalls None [Demo.DELETE_UNIVERSE];
                       ToolMsg (py "call_1")
                               (py "错误: 未知工具 delete_universe")] 10).
Proof. vm_compute. reflexivity. Qed.

(** ** Instances of the further properties *)

(** The edit tool on a file in memory that holds
    [mode=dev;debug=on;mode=dev]. *)
Lemma edit_not_found_witness :
  let w := MemFiles.CONFIG in
  let content := py "mode=dev;debug=on;mode=dev" in
  MemFiles.read_text (py "app.cfg") w = (Val content, w)
  /\ str_count (py "prod") content = 0
  /\ edit MemFiles.read_text MemFiles.write_text
          (py "app.cfg") (py "prod") (py "test") true w
     = write_and_report MemFiles.write_text (py "app.cfg") content
                        (py "未找到匹配内容") w.
Proof.
  intros w content.
  assert (R : MemFiles.read_text (py "app.cfg") w = (Val content, w))
    by (vm_compute; reflexivity).
  assert (C : str_count (py "prod") content = 0) by (vm_compute; reflexivity).
  split; [exact R|]. split; [exact C|].
  exact (@edit_not_found _ MemFiles.read_text MemFiles.write_text
           (py "app.cfg") (py "prod") (py "test") content true w w R C).
Defined.

Lemma edit_unique_witness :
  let w := MemFiles.CONFIG in
  let content := py "mode=dev;debug=on;mode=dev" in
  MemFiles.read_text (py "app.cfg") w = (Val content, w)
  /\ str_count (py "debug=on") content = 1
  /\ exists before after,
       content = before ++ py "debug=on" ++ after
       /\ (forall n, n < length before ->
           starts_with (py "debug=on") (skipn n content) = false)
       /\ forall all,
            edit MemFiles.read_text MemFiles.write_text
                 (py "app.cfg") (py "debug=on") (py "debug=off") all w
            = write_and_report MemFiles.write_text (py "app.cfg")
                (before ++ py "debug=off" ++ after)
                (py "成功替换 1 处内容") w.
Proof.
  intros w content.
  assert (R : MemFiles.read_text (py "app.cfg") w = (Val content, w))
    by (vm_compute; reflexivity).
  assert (C : str_count (py "debug=on") content = 1)
    by (vm_compute; reflexivity).
  split; [exact R|]. split; [exact C|].
  exact (@edit_unique _ MemFiles.read_text MemFiles.write_text
           (py "app.cfg") (py "debug=on") (py "debug=off") content w w R C).
Defined.

Lemma edit_refuses_several_witness :
  let w := MemFiles.CONFIG in
  let content := py "mode=dev;debug=on;mode=dev" in
  MemFiles.read_text (py "app.cfg") w = (Val content, w)
  /\ 1 < str_count (py "mode=dev") content
  /\ edit MemFiles.read_text MemFiles.write_text
          (py "app.cfg") (py "mode=dev") (py "mode=prod") false w
     = (Val MULTIPLE_MATCHES, w).
Proof.
  intros w content.
  assert (R : MemFiles.read_text (py "app.cfg") w = (Val content, w))
    by (vm_compute; reflexivity).
  assert (C : 1 < str_count (py "mode=dev") content)
    by (vm_compute; repeat constructor).
  split; [exact R|]. split; [exact C|].
  exact (@edit_refuses_several _ MemFiles.read_text MemFiles.write_text
           (py "app.cfg") (py "mode=dev") (py "mode=prod") content w w R C).
Defined.

Lemma edit_empty_old_witness :
  let w := MemFiles.CONFIG in
  let content := py "mode=dev;debug=on;mode=dev" in
  MemFiles.read_text (py "app.cfg") w = (Val content, w)
  /\ (content <> [] ->
      edit MemFiles.read_text MemFiles.write_text
           (py "app.cfg") [] (py "x") false w
      = (Val MULTIPLE_MATCHES, w))
  /\ (content = [] ->
      forall all,
        edit MemFiles.read_text MemFiles.write_text
             (py "app.cfg") [] (py "x") all w
        = write_and_report MemFiles.write_text (py "app.cfg") (py "x")
                           (py "成功替换 1 处内容") w).
Proof.
  intros w content.
  assert (R : MemFiles.read_text (py "app.cfg") w = (Val content, w))
    by (vm_compute; reflexivity).
  split; [exact R|].
  exact (@edit_empty_old _ MemFiles.read_text MemFiles.write_text
           (py "app.cfg") (py "x") content w w R).
Defined.

Lemma edit_all_length_witness :
  let w := MemFiles.CONFIG in
  let content := py "mode=dev;debug=on;mode=dev" in
  MemFiles.read_text (py "app.cfg") w = (Val content, w)
  /\ exists new_content,
       edit MemFiles.read_text MemFiles.write_text
            (py "app.cfg") (py "dev") (py "production") true w
       = write_and_report MemFiles.write_text (py "app.cfg") new_content
           (edit_report (str_count (py "dev") content)) w
       /\ length new_content + str_count (py "dev") content * length (py "dev")
          = length content
            + str_count (py "dev") content * length (py "production").
Proof.
  intros w content.
  assert (R : MemFiles.read_text (py "app.cfg") w = (Val content, w))
    by (vm_compute; reflexivity).
  split; [exact R|].
  exact (@edit_all_length _ MemFiles.read_text MemFiles.write_text
           (py "app.cfg") (py "dev") (py "production") content w w R).
Defined.


(** The read tool on the three lines of [notes.txt]. *)
Lemma read_window_lines_witness :
  (1 <= 2)%Z
  /\ read_result Demo.NOTES (Some 2%Z) None
     = numbered 2 (skipn (Z.to_nat (2 - 1)) Demo.NOTES)
  /\ (forall n, (0 <= n)%Z ->
      read_result Demo.NOTES (Some 2%Z) (Some n)
      = numbered 2
          (firstn (Z.to_nat n) (skipn (Z.to_nat (2 - 1)) Demo.NOTES)))
  /\ (forall j line,
      nth_error Demo.NOTES (Z.to_nat (2 - 1) + j) = Some line ->
      nth_error (read_result Demo.NOTES (Some 2%Z) None) j
      = Some (format_4d (2 + Z.of_nat j) ++ py " | " ++ rstrip line)).
Proof.
  assert (O : (1 <= 2)%Z) by lia.
  split; [exact O|].
  exact (@read_window_lines Demo.NOTES 2%Z O).
Defined.

Lemma read_offset_floor_witness :
  (-3 <= 1)%Z
  /\ read (Demo.readlines (world (Demo.start []))) (py "notes.txt")
          (Some (-3)%Z) (Some 2%Z)
     = read (Demo.readlines (world (Demo.start []))) (py "notes.txt")
            (Some 1%Z) (Some 2%Z).
Proof.
  assert (O : (-3 <= 1)%Z) by lia.
  split; [exact O|].
  exact (@read_offset_floor (Demo.readlines (world (Demo.start [])))
           (py "notes.txt") (-3)%Z (Some 2%Z) O).
Defined.

Lemma read_past_end_witness :
  Demo.readlines (world (Demo.start [])) (py "notes.txt") = Val Demo.NOTES
  /\ (Z.of_nat (length Demo.NOTES) < 4)%Z
  /\ read (Demo.readlines (world (Demo.start []))) (py "notes.txt")
          (Some 4%Z) None
     = py "(空文件)".
Proof.
  assert (R : Demo.readlines (world (Demo.start [])) (py "notes.txt")
              = Val Demo.NOTES) by (vm_compute; reflexivity).
  assert (O : (Z.of_nat (length Demo.NOTES) < 4)%Z) by (vm_compute; reflexivity).
  split; [exact R|]. split; [exact O|].
  exact (@read_past_end (Demo.readlines (world (Demo.start [])))
           (py "notes.txt") Demo.NOTES 4%Z None R O).
Defined.

Lemma read_limit_not_positive_witness :
  Demo.readlines (world (Demo.start [])) (py "notes.txt") = Val Demo.NOTES
  /\ (0 <= 0)%Z /\ (0 <= Z.max 0 (2 - 1) + 0)%Z
  /\ read (Demo.readlines (world (Demo.start []))) (py "notes.txt")
          (Some 2%Z) (Some 0%Z)
     = py "(空文件)".
Proof.
  assert (R : Demo.readlines (world (Demo.start [])) (py "notes.txt")
              = Val Demo.NOTES) by (vm_compute; reflexivity).
  assert (N : (0 <= 0)%Z) by lia.
  assert (S : (0 <= Z.max 0 (2 - 1) + 0)%Z) by lia.
  split; [exact R|]. split; [exact N|]. split; [exact S|].
  exact (@read_limit_not_positive (Demo.readlines (world (Demo.start [])))
           (py "notes.txt") Demo.NOTES 2%Z 0%Z R N S).
Defined.

Lemma read_limit_from_the_end_witness :
  (1 <= 1)%Z /\ (1 - 1 + -1 < 0)%Z
  /\ (0 <= Z.of_nat (length Demo.NOTES) + -1)%Z
  /\ read_result Demo.NOTES (Some 1%Z) (Some (-1)%Z)
     = numbered 1
         (firstn (Z.to_nat (Z.of_nat (length Demo.NOTES) + -1))
                 (skipn (Z.to_nat (1 - 1)) Demo.NOTES)).
Proof.
  assert (O : (1 <= 1)%Z) by lia.
  assert (S : (1 - 1 + -1 < 0)%Z) by lia.
  assert (L : (0 <= Z.of_nat (length Demo.NOTES) + -1)%Z)
    by (vm_compute; discriminate).
  split; [exact O|]. split; [exact S|]. split; [exact L|].
  exact (@read_limit_from_the_end Demo.NOTES 1%Z (-1)%Z O S L).
Defined.

Example read_with_negative_limit :
  read (Demo.readlines (world (Demo.start []))) (py "notes.txt")
       (Some 1%Z) (Some (-1)%Z)
  = join NL [py "   1 | alpha"; py "   2 | beta"].
Proof. reflexivity. Qed.

(** A turn with one whole round, and then a round the decoder cuts
    short. *)
Lemma chat_failure_keeps_user_turn_witness :
  let s := Demo.start
             [Demo.asking [Demo.DELETE_UNIVERSE];
              Demo.asking [Demo.READ_NOTES; Demo.READ_WITH_LONG_LIMIT]] in
  let run := chat Demo.scripted_model Demo.call_handler JsonLite.json_loads
                  JsonLite.json_dumps Demo.no_colour (py "hello") s in
  run = (Exn (JsonLite.too_many_digits 4301), snd run)
  /\ exists rounds last,
       length rounds < 10
       /\ Forall tool_round rounds
       /\ (last = [] \/ cut_round last)
       /\ messages (agent (snd run))
          = messages (agent s) ++ UserMsg (py "hello") :: concat rounds ++ last.
Proof.
  intros s run.
  assert (H : run = (Exn (JsonLite.too_many_digits 4301), snd run))
    by (vm_compute; reflexivity).
  split; [exact H|].
  exact (@chat_failure_keeps_user_turn _ Demo.scripted_model Demo.call_handler
           JsonLite.json_loads JsonLite.json_dumps Demo.no_colour
           (py "hello") (JsonLite.too_many_digits 4301) s (snd run) H).
Defined.

Example history_after_a_cut_round :
  let s := Demo.start
             [Demo.asking [Demo.DELETE_UNIVERSE];
              Demo.asking [Demo.READ_NOTES; Demo.READ_WITH_LONG_LIMIT]] in
  messages (agent (snd (Demo.run_chat (py "hello") s)))
  = [UserMsg (py "hello");
     AssistantCalls None [Demo.DELETE_UNIVERSE];
     ToolMsg (py "call_1") (py "错误: 未知工具 delete_universe");
     AssistantCalls None [Demo.READ_NOTES; Demo.READ_WITH_LONG_LIMIT];
     ToolMsg (py "call_a")
       (join NL [py "   1 | alpha"; py "   2 | beta"; py "   3 | gamma"])].
Proof. vm_compute. reflexivity. Qed.

(** A turn the model answers at once. *)
Lemma chat_return_and_last_turn_witness :
  let s := Demo.start [{| choices := [{| content := Some (py "4");
                                         tool_calls := None |}] |}] in
  let run := Demo.run_chat (py "what is 2+2") s in
  run = (Val (Some (py "4")), snd run)
  /\ ((exists earlier,
         messages (agent (snd run)) = earlier ++ [AssistantMsg (Some (py "4"))])
      \/ (Some (py "4") = Some ITERATION_LIMIT_MESSAGE
          /\ exists earlier id text,
               messages (agent (snd run)) = earlier ++ [ToolMsg id text])).
Proof.
  intros s run.
  assert (H : run = (Val (Some (py "4")), snd run))
    by (vm_compute; reflexivity).
  split; [exact H|].
  exact (@chat_return_and_last_turn _ Demo.scripted_model Demo.call_handler
           JsonLite.json_loads JsonLite.json_dumps Demo.no_colour
           (py "what is 2+2") (Some (py "4")) s (snd run) H).
Defined.

Lemma chat_direct_answer_witness :
  let m := {| content := Some (py "4"); tool_calls := None |} in
  let s := Demo.start [{| choices := [m] |}] in
  let asked := advance s [UserMsg (py "what is 2+2")] (world s) [] in
  let w1 := {| Demo.files := Demo.files (world s); Demo.script := [] |} in
  Demo.scripted_model (request_of (agent asked)) (world s)
  = (Val {| choices := [m] |}, w1)
  /\ (tool_calls m = None \/ tool_calls m = Some [])
  /\ chat Demo.scripted_model Demo.call_handler JsonLite.json_loads
          JsonLite.json_dumps Demo.no_colour (py "what is 2+2") s
     = (Val (content m),
        advance s [UserMsg (py "what is 2+2"); AssistantMsg (content m)] w1
                [EvModelCall (request_of (agent asked))]).
Proof.
  intros m s asked w1.
  assert (C : Demo.scripted_model (request_of (agent asked)) (world s)
              = (Val {| choices := [m] |}, w1)) by reflexivity.
  assert (T : tool_calls m = None \/ tool_calls m = Some [])
    by (left; reflexivity).
  split; [exact C|]. split; [exact T|].
  exact (@chat_direct_answer _ Demo.scripted_model Demo.call_handler
           JsonLite.json_loads JsonLite.json_dumps Demo.no_colour
           (py "what is 2+2") s m [] w1 C T).
Defined.

(** Decoding and the bash tool on a process that greets, warns and exits
    with 2. *)
Lemma decode_bytes_utf8_text_witness :
  forallb is_scalar (py "你好 🔧") = true
  /\ _decode_bytes ToolDemo.decode_gbk ToolDemo.decode_replace
                   (utf8_encode (py "你好 🔧"))
     = py "你好 🔧".
Proof.
  assert (S : forallb is_scalar (py "你好 🔧") = true)
    by (vm_compute; reflexivity).
  split; [exact S|].
  exact (@decode_bytes_utf8_text ToolDemo.decode_gbk ToolDemo.decode_replace
           (py "你好 🔧") S).
Defined.

Lemma bash_reports_exit_code_witness :
  ToolDemo.subprocess_run (py "greet") tt = (Completed ToolDemo.GREETING, tt)
  /\ cp_returncode ToolDemo.GREETING <> 0%Z
  /\ exists shown,
       bash ToolDemo.decode_gbk ToolDemo.decode_replace
            ToolDemo.subprocess_run (py "greet") tt
       = (Val (shown ++ NL ++ py "[退出码]: "
               ++ str_of_int (cp_returncode ToolDemo.GREETING)), tt).
Proof.
  assert (R : ToolDemo.subprocess_run (py "greet") tt
              = (Completed ToolDemo.GREETING, tt)) by reflexivity.
  assert (C : cp_returncode ToolDemo.GREETING <> 0%Z) by discriminate.
  split; [exact R|]. split; [exact C|].
  exact (@bash_reports_exit_code ToolDemo.decode_gbk ToolDemo.decode_replace
           _ ToolDemo.subprocess_run (py "greet") tt tt ToolDemo.GREETING R C).
Defined.

Lemma bash_utf8_output_witness :
  ToolDemo.subprocess_run (py "greet") tt = (Completed ToolDemo.GREETING, tt)
  /\ cp_stdout ToolDemo.GREETING = utf8_encode (py "你好")
  /\ forallb is_scalar (py "你好") = true
  /\ cp_stderr ToolDemo.GREETING = utf8_encode (py "warn")
  /\ forallb is_scalar (py "warn") = true
  /\ bash ToolDemo.decode_gbk ToolDemo.decode_replace
          ToolDemo.subprocess_run (py "greet") tt
     = (Val (or_no_output
               (py "你好"
                ++ bash_tail (py "warn") (cp_returncode ToolDemo.GREETING))),
        tt).
Proof.
  assert (R : ToolDemo.subprocess_run (py "greet") tt
              = (Completed ToolDemo.GREETING, tt)) by reflexivity.
  assert (O : cp_stdout ToolDemo.GREETING = utf8_encode (py "你好"))
    by reflexivity.
  assert (SO : forallb is_scalar (py "你好") = true)
    by (vm_compute; reflexivity).
  assert (E : cp_stderr ToolDemo.GREETING = utf8_encode (py "warn"))
    by reflexivity.
  assert (SE : forallb is_scalar (py "warn") = true)
    by (vm_compute; reflexivity).
  split; [exact R|]. split; [exact O|]. split; [exact SO|].
  split; [exact E|]. split; [exact SE|].
  exact (@bash_utf8_output ToolDemo.decode_gbk ToolDemo.decode_replace
           _ ToolDemo.subprocess_run (py "greet") (py "你好") (py "warn")
           tt tt ToolDemo.GREETING R O SO E SE).
Defined.

Example bash_greeting :
  bash ToolDemo.decode_gbk ToolDemo.decode_replace ToolDemo.subprocess_run
       (py "greet") tt
  = (Val (join NL [py "你好"; py "[stderr]: warn"; py "[退出码]: 2"]), tt).
Proof. vm_compute. reflexivity. Qed.

(** The glob and grep tools on a small tree. *)
Lemma glob_lists_newest_first_witness :
  let dirs := [(py "src", [py "a.py"; py "notes.txt"; py "b.py"])] in
  let wanted :=
    matching_files ToolDemo.path_join ToolDemo.fnmatch (py "*.py") dirs in
  (forall a b, Z.ltb a b = true -> Z.ltb b a = false)
  /\ (forall a b c, Z.ltb a b = false -> Z.ltb b c = false -> Z.ltb a c = false)
  /\ ToolDemo.walk (py "src") = Val dirs
  /\ (forall p, In p wanted -> ToolDemo.getmtime p = Val (ToolDemo.mtime_of p))
  /\ exists listing,
       Permutation listing (stamped ToolDemo.mtime_of wanted)
       /\ newest_first Z.ltb listing
       /\ glob ToolDemo.walk ToolDemo.path_join ToolDemo.fnmatch
               ToolDemo.getmtime Z.ltb str_of_int (py "*.py") (py "src")
          = match listing with
            | [] => py "未找到匹配文件"
            | _ => join NL (map (glob_line str_of_int) listing)
            end.
Proof.
  intros dirs wanted.
  assert (A : forall a b, Z.ltb a b = true -> Z.ltb b a = false)
    by (intros a b H; apply Z.ltb_lt in H; apply Z.ltb_ge; lia).
  assert (T : forall a b c,
            Z.ltb a b = false -> Z.ltb b c = false -> Z.ltb a c = false)
    by (intros a b c H1 H2; apply Z.ltb_ge in H1, H2; apply Z.ltb_ge; lia).
  assert (W : ToolDemo.walk (py "src") = Val dirs) by (vm_compute; reflexivity).
  assert (G : forall p, In p wanted ->
              ToolDemo.getmtime p = Val (ToolDemo.mtime_of p)).
  { intros p Hp. vm_compute in Hp.
    destruct Hp as [<-|[<-|[]]]; vm_compute; reflexivity. }
  split; [exact A|]. split; [exact T|]. split; [exact W|]. split; [exact G|].
  exact (@glob_lists_newest_first ToolDemo.walk ToolDemo.path_join
           ToolDemo.fnmatch Z ToolDemo.getmtime Z.ltb str_of_int
           ToolDemo.mtime_of (py "*.py") (py "src") dirs A T W G).
Defined.

Example glob_newest_first :
  glob ToolDemo.walk ToolDemo.path_join ToolDemo.fnmatch ToolDemo.getmtime
       Z.ltb str_of_int (py "*.py") (py "src")
  = join NL [py "src/b.py | 200"; py "src/a.py | 100"].
Proof. vm_compute. reflexivity. Qed.

Lemma glob_mtime_failure_witness :
  let files := [py "gone.py"; py "kept.py"] in
  let dirs := [(py "lost", files)] in
  let e := py "[Errno 2] No such file or directory: 'lost/gone.py'" in
  ToolDemo.walk (py "lost") = Val dirs
  /\ In (py "lost", files) dirs
  /\ In (py "gone.py") files
  /\ ToolDemo.fnmatch (py "gone.py") (py "*.py") = true
  /\ ToolDemo.getmtime (ToolDemo.path_join (py "lost") (py "gone.py")) = Exn e
  /\ exists e',
       glob ToolDemo.walk ToolDemo.path_join ToolDemo.fnmatch
            ToolDemo.getmtime Z.ltb str_of_int (py "*.py") (py "lost")
       = py "错误: " ++ e'.
Proof.
  intros files dirs e.
  assert (W : ToolDemo.walk (py "lost") = Val dirs)
    by (vm_compute; reflexivity).
  assert (D : In (py "lost", files) dirs) by (left; reflexivity).
  assert (I : In (py "gone.py") files) by (left; reflexivity).
  assert (M : ToolDemo.fnmatch (py "gone.py") (py "*.py") = true)
    by (vm_compute; reflexivity).
  assert (F : ToolDemo.getmtime (ToolDemo.path_join (py "lost") (py "gone.py"))
              = Exn e) by (vm_compute; reflexivity).
  split; [exact W|]. split; [exact D|]. split; [exact I|].
  split; [exact M|]. split; [exact F|].
  exact (@glob_mtime_failure ToolDemo.walk ToolDemo.path_join ToolDemo.fnmatch
           Z ToolDemo.getmtime Z.ltb str_of_int (py "*.py") (py "lost")
           (py "lost") (py "gone.py") e files dirs W D I M F).
Defined.

Lemma grep_invalid_pattern_witness :
  let dirs := [(py "src", [py "a.py"; py "notes.txt"; py "b.py"])] in
  ToolDemo.walk (py "src") = Val dirs
  /\ (forall line, exists e, ToolDemo.re_search (py "(") line = Exn e)
  /\ grep ToolDemo.walk ToolDemo.path_join ToolDemo.open_lines
          ToolDemo.re_search (py "(") (py "src")
     = py "未找到匹配".
Proof.
  intros dirs.
  assert (W : ToolDemo.walk (py "src") = Val dirs) by (vm_compute; reflexivity).
  assert (H : forall line, exists e, ToolDemo.re_search (py "(") line = Exn e)
    by (intros line; eexists; reflexivity).
  split; [exact W|]. split; [exact H|].
  exact (@grep_invalid_pattern ToolDemo.walk ToolDemo.path_join
           ToolDemo.open_lines ToolDemo.re_search (py "(") (py "src") dirs
           W H).
Defined.

Lemma grep_sound_witness :
  let dirs := [(py "src", [py "a.py"; py "notes.txt"; py "b.py"])] in
  ToolDemo.walk (py "src") = Val dirs
  /\ exists results,
       Forall (grep_hit ToolDemo.path_join ToolDemo.open_lines
                        ToolDemo.re_search (py "import") dirs) results
       /\ grep ToolDemo.walk ToolDemo.path_join ToolDemo.open_lines
               ToolDemo.re_search (py "import") (py "src")
          = match results with
            | [] => py "未找到匹配"
            | _ => join NL (firstn 50 results)
            end.
Proof.
  intros dirs.
  assert (W : ToolDemo.walk (py "src") = Val dirs) by (vm_compute; reflexivity).
  split; [exact W|].
  exact (@grep_sound ToolDemo.walk ToolDemo.path_join ToolDemo.open_lines
           ToolDemo.re_search (py "import") (py "src") dirs W).
Defined.

Example grep_imports :
  grep ToolDemo.walk ToolDemo.path_join ToolDemo.open_lines
       ToolDemo.re_search (py "import") (py "src")
  = join NL [py "src/a.py:1: import os"; py "src/b.py:1: import sys"].
Proof. vm_compute. reflexivity. Qed.

(** The interactive loop at a console: a question, [/CLEAR], a line that
    cannot be read, and [Quit]. *)
Example session_of_four_passes :
  let no_tools := {| content := Some (py "4"); tool_calls := None |} in
  let s := Session.start
             [Typed (py "  what is 2+2 "); Typed (py "/CLEAR");
              InputRaised (py "EOF when reading a line");
              Typed (py " Quit")]
             [{| choices := [no_tools] |}] in
  messages (agent (snd (Session.main_loop 1 s)))
  = [UserMsg (py "what is 2+2"); AssistantMsg (Some (py "4"))]
  /\ messages (agent (snd (Session.main_loop 2 s))) = []
  /\ fst (Session.main_loop 3 s) = Val false
  /\ fst (Session.main_loop 4 s) = Val true.
Proof. vm_compute. repeat split. Qed.

Lemma main_loop_input_ended_witness :
  let ended := fun w => Session.keyboard w = [] in
  let e := py "EOF when reading a line" in
  let s := Session.start [] [] in
  (forall prompt w, ended w ->
     exists w', Session.input prompt w = (InputRaised e, w') /\ ended w')
  /\ ended (world s)
  /\ exists s',
       Session.main_loop 3 s = (Val false, s')
       /\ ended (world s')
       /\ agent s' = agent s
       /\ trace s'
          = trace s
            ++ concat (repeat [EvPrint []; EvPrint (error_line e)] 3).
Proof.
  intros ended e s.
  assert (H : forall prompt w, ended w ->
              exists w', Session.input prompt w = (InputRaised e, w')
                         /\ ended w').
  { intros prompt w W. exists w. unfold Session.input. rewrite W.
    split; [reflexivity|exact W]. }
  assert (W : ended (world s)) by reflexivity.
  split; [exact H|]. split; [exact W|].
  exact (@main_loop_input_ended _ Session.create_completion
           Session.call_handler JsonLite.json_loads JsonLite.json_dumps
           Demo.no_colour [] [] Session.input Session.lower
           Session.show_params ended e 3 s H W).
Defined.

Lemma main_commands_stay_local_witness :
  let line := py "  /CLEAR " in
  let fresh := Session.start [Typed line] [] in
  let s := advance fresh [UserMsg (py "hi"); AssistantMsg (Some (py "hello"))]
                   (world fresh) [] in
  let w1 := {| Session.keyboard := [];
               Session.outside := Session.outside (world fresh) |} in
  Session.input (PROMPT Demo.no_colour []) (world s) = (Typed line, w1)
  /\ is_command Session.lower (strip line) = true
  /\ exists lines,
       Session.main_iteration s
       = (Val (if is_quit Session.lower (strip line) then Leave else GoOn),
          {| agent := set_messages (agent s)
                        (if is_clear Session.lower (strip line) then []
                         else messages (agent s));
             world := w1;
             trace := trace s ++ map EvPrint ([] :: lines) |}).
Proof.
  intros line fresh s w1.
  assert (I : Session.input (PROMPT Demo.no_colour []) (world s)
              = (Typed line, w1)) by reflexivity.
  assert (K : is_command Session.lower (strip line) = true)
    by (vm_compute; reflexivity).
  split; [exact I|]. split; [exact K|].
  exact (@main_commands_stay_local _ Session.create_completion
           Session.call_handler JsonLite.json_loads JsonLite.json_dumps
           Demo.no_colour [] [] Session.input Session.lower
           Session.show_params s line w1 I K).
Defined.

Example clear_in_capitals :
  let line := py "  /CLEAR " in
  let fresh := Session.start [Typed line] [] in
  let s := advance fresh [UserMsg (py "hi"); AssistantMsg (Some (py "hello"))]
                   (world fresh) [] in
  fst (Session.main_iteration s) = Val GoOn
  /\ messages (agent (snd (Session.main_iteration s))) = []
  /\ trace (snd (Session.main_iteration s))
     = [EvPrint []; EvPrint (py "对话历史已清空")].
Proof. vm_compute. repeat split. Qed.

Example turn_without_endpoint :
  let s := Session.start [Typed (py "  Hello there ")] [] in
  fst (Session.main_iteration s) = Val GoOn
  /\ messages (agent (snd (Session.main_iteration s)))
     = [UserMsg (py "Hello there")]
  /\ last (trace (snd (Session.main_iteration s))) (EvPrint [])
     = EvPrint (NL ++ py "❌ 错误: Connection error.").
Proof. vm_compute. repeat split. Qed.
